(** * ecoNET-300 sensor platform: a shallow embedding of
      [custom_components/econet300/sensor.py]

    The module builds Home Assistant sensor entities from a snapshot of the
    controller's registers.  The embedding follows the Python text function by
    function.  Python values are an inductive type, dictionaries are finite
    maps, exceptions and the calls made to the logger and to the host
    platform are threaded through a small state-and-error monad. *)

From Stdlib Require Import ZArith Floats.
From stdpp Require Import base option strings gmap list.

Local Open Scope string_scope.
Local Open Scope Z_scope.
Local Open Scope list_scope.

(** ** Python values *)

(** The values a register snapshot holds (decoded JSON scalars). *)
Inductive pyval : Type :=
  | PNone
  | PBool (b : bool)
  | PInt (z : Z)
  | PFloat (f : float)
  | PStr (s : string).

Inductive exn : Type :=
  | TypeError (msg : string)
  | KeyError (k : string)
  | OverflowError (msg : string).

Inductive res (A : Type) : Type :=
  | Ok (a : A)
  | Raise (e : exn).
Arguments Ok {A} a.
Arguments Raise {A} e.

Module Py.

(** [bool(v)]: None, False, 0, 0.0, -0.0 and the empty string are falsy. *)
Definition truthy (v : pyval) : bool :=
  match v with
  | PNone => false
  | PBool b => b
  | PInt z => negb (z =? 0)
  | PFloat f => negb (PrimFloat.eqb f PrimFloat.zero)
  | PStr s => negb (String.eqb s "")
  end.

(** [a or b] returns the operand, not a boolean. *)
Definition or (a b : pyval) : pyval := if truthy a then a else b.

(** [v is None] *)
Definition is_None (v : pyval) : bool :=
  match v with PNone => true | _ => false end.

(** [d.get(k)] on a dictionary of values: None when the key is missing. *)
Definition get (d : gmap string pyval) (k : string) : pyval :=
  default PNone (d !! k).

Definition float_of_Z (z : Z) : spec_float :=
  match z with
  | Z0 => S754_zero false
  | Zpos p => S754_finite false p 0
  | Zneg p => S754_finite true p 0
  end.

(** [z / d] on ints: the correctly rounded quotient, OverflowError when it
    does not fit a double. *)
Definition int_truediv (z d : Z) : res pyval :=
  match SFdiv prec emax (float_of_Z z) (float_of_Z d) with
  | S754_infinity _ =>
      Raise (OverflowError "integer division result too large for a float")
  | q => Ok (PFloat (SF2Prim q))
  end.

(** [x / 10] *)
Definition truediv10 (x : pyval) : res pyval :=
  match x with
  | PInt z => int_truediv z 10
  | PBool b => int_truediv (if b then 1 else 0) 10
  | PFloat f => Ok (PFloat (PrimFloat.div f (SF2Prim (float_of_Z 10))))
  | PNone => Raise (TypeError "unsupported operand type(s) for /: 'NoneType' and 'int'")
  | PStr _ => Raise (TypeError "unsupported operand type(s) for /: 'str' and 'int'")
  end.

End Py.

(** ** Descriptors *)

(** [homeassistant.components.sensor.SensorStateClass] *)
Inductive SensorStateClass : Type :=
  | MEASUREMENT
  | TOTAL
  | TOTAL_INCREASING.

(** [EconetSensorEntityDescription]: the fields the module sets; the frozen
    dataclass is a plain record. *)
Record EconetSensorEntityDescription : Type := {
  key : string;
  device_class : option string;
  entity_category : option string;
  translation_key : string;
  icon : option string;
  native_unit_of_measurement : option string;
  state_class : option SensorStateClass;
  suggested_display_precision : Z;
  process_val : pyval -> res pyval
}.

(** [lambda x: x] *)
Definition identity (x : pyval) : res pyval := Ok x.

(** The tables imported from [const.py]. *)
Record const : Type := {
  ENTITY_CATEGORY : gmap string string;
  ENTITY_ICON : gmap string string;
  ENTITY_PRECISION : gmap string Z;
  ENTITY_SENSOR_DEVICE_CLASS_MAP : gmap string string;
  ENTITY_UNIT_MAP : gmap string string;
  ENTITY_VALUE_PROCESSOR : gmap string (pyval -> res pyval);
  SENSOR_MAP_KEY : gmap string (list string);
  SENSOR_MIXER_KEY : list (string * list string);
  STATE_CLASS_MAP : gmap string (option SensorStateClass)
}.

(** ** Effects: exceptions, the logger and the host platform *)

Inductive level : Type := DEBUG | INFO | WARNING.

Inductive log_arg : Type :=
  | ArgStr (s : string)
  | ArgParams (d : gmap string pyval)
  | ArgDescription (d : EconetSensorEntityDescription).

(** What the module does to the outside: calls to [_LOGGER] and
    [async_write_ha_state] on the entity with the given key, which publishes
    the given native value. *)
Inductive event : Type :=
  | Log (lvl : level) (fmt : string) (args : list log_arg)
  | WriteHaState (k : string) (state : pyval).

(** A computation reads the trace so far and returns a value or an exception
    together with the extended trace. *)
Definition M (A : Type) : Type := list event -> res A * list event.

Definition ret {A} (a : A) : M A := fun w => (Ok a, w).

Definition bind {A B} (m : M A) (k : A -> M B) : M B :=
  fun w =>
    match m w with
    | (Ok a, w') => k a w'
    | (Raise e, w') => (Raise e, w')
    end.

Definition raise {A} (e : exn) : M A := fun w => (Raise e, w).

Definition emit (ev : event) : M unit := fun w => (Ok tt, w ++ [ev]).

Definition lift {A} (r : res A) : M A := fun w => (r, w).

#[global] Instance M_ret : MRet M := @ret.
#[global] Instance M_bind : MBind M := fun A B k m => bind m k.

Definition _LOGGER (lvl : level) (fmt : string) (args : list log_arg) : M unit :=
  emit (Log lvl fmt args).

(** The outcome and the trace of a run. *)
Definition outcome {A} (m : M A) (w : list event) : res A := fst (m w).
Definition trace {A} (m : M A) (w : list event) : list event := snd (m w).

(** ** The coordinator and the entities *)

(** [EconetDataCoordinator]: this module reads only its [data], a dictionary
    whose entries "regParams" and "sysParams" are dictionaries of values. *)
Record EconetDataCoordinator : Type := {
  data : gmap string (gmap string pyval)
}.

(** [coordinator.data.get(name, {})] *)
Definition data_get (coordinator : EconetDataCoordinator) (name : string)
  : gmap string pyval :=
  default ∅ (data coordinator !! name).

(** The three entity classes of the module. *)
Inductive entity_class : Type :=
  | class_EconetSensor
  | class_MixerSensor
  | class_LambdaSensors.

(** Positional parameters of each class's [__init__] after [self]:
    [MixerSensor] also takes [idx], and none has a default. *)
Definition init_arity (c : entity_class) : nat :=
  match c with
  | class_EconetSensor => 3
  | class_MixerSensor => 4
  | class_LambdaSensors => 3
  end.

Definition class_name (c : entity_class) : string :=
  match c with
  | class_EconetSensor => "EconetSensor"
  | class_MixerSensor => "MixerSensor"
  | class_LambdaSensors => "LambdaSensors"
  end.

(** [d.get(k, [])] and [d.keys()] on a dictionary kept in insertion order. *)
Fixpoint items_get (d : list (string * list string)) (k : string) : list string :=
  match d with
  | [] => []
  | (k', v) :: d' => if String.eqb k' k then v else items_get d' k
  end.

Definition items_keys (d : list (string * list string)) : list string :=
  map fst d.

(** [d[k]] *)
Definition subscript (d : gmap string (list string)) (k : string) : M (list string) :=
  match d !! k with
  | Some v => mret v
  | None => raise (KeyError k)
  end.

Section Sensor.

(** [Econet300Api] (common.py) is only stored. *)
Context {Econet300Api : Type}.

(** [camel_to_snake] (common_functions.py) and the tables of const.py. *)
Variable camel_to_snake : string -> string.
Variable tbl : const.

(** An instance of [EconetSensor] or of one of its two subclasses. *)
Record EconetSensor : Type := {
  class_of : entity_class;
  entity_description : EconetSensorEntityDescription;
  coordinator_of : EconetDataCoordinator;
  api_of : Econet300Api;
  _attr_native_value : pyval
}.

(** [EconetSensor.__init__]; the initialisers of the base classes in
    entity.py keep the coordinator and do not raise. *)
Definition EconetSensor__init__ (c : entity_class)
    (description : EconetSensorEntityDescription)
    (coordinator : EconetDataCoordinator) (api : Econet300Api) : M EconetSensor :=
  mret {| class_of := c;
          entity_description := description;
          coordinator_of := coordinator;
          api_of := api;
          _attr_native_value := PNone |}.

(** [async_write_ha_state] of the host platform publishes the native value. *)
Definition async_write_ha_state (self : EconetSensor) : M unit :=
  emit (WriteHaState (key (entity_description self)) (_attr_native_value self)).

(** [EconetSensor._sync_state] *)
Definition _sync_state (self : EconetSensor) (value : pyval) : M EconetSensor :=
  v ← lift (process_val (entity_description self) value);
  let self := {| class_of := class_of self;
                 entity_description := entity_description self;
                 coordinator_of := coordinator_of self;
                 api_of := api_of self;
                 _attr_native_value := v |} in
  async_write_ha_state self ;;
  mret self.

(** The call [entity_class(entity_desc, coordinator, api)] of
    [create_sensors]: three positional arguments.  [MixerSensor.__init__]
    and [LambdaSensors.__init__] only forward to [super().__init__]. *)
Definition call_entity_class (c : entity_class)
    (entity_desc : EconetSensorEntityDescription)
    (coordinator : EconetDataCoordinator) (api : Econet300Api) : M EconetSensor :=
  if (init_arity c =? 3)%nat then EconetSensor__init__ c entity_desc coordinator api
  else raise (TypeError (class_name c ++
               ".__init__() missing 1 required positional argument: 'idx'")%string).

(** [create_entity_description].  A transform is kept here by what it
    computes; which object it is (the default [lambda x: x] is a new one at
    every call) is followed by [create_entity_description_obj] below. *)
Definition create_entity_description (key : string)
    (process_val : pyval -> res pyval) : M EconetSensorEntityDescription :=
  _LOGGER DEBUG "Creating sensor entity description for key: %s" [ArgStr key] ;;
  let entity_description :=
    {| key := key;
       device_class := ENTITY_SENSOR_DEVICE_CLASS_MAP tbl !! key;
       entity_category := ENTITY_CATEGORY tbl !! key;
       translation_key := camel_to_snake key;
       icon := ENTITY_ICON tbl !! key;
       native_unit_of_measurement := ENTITY_UNIT_MAP tbl !! key;
       state_class := default (Some MEASUREMENT) (STATE_CLASS_MAP tbl !! key);
       suggested_display_precision := default 0 (ENTITY_PRECISION tbl !! key);
       process_val := default identity (ENTITY_VALUE_PROCESSOR tbl !! key) |} in
  _LOGGER DEBUG "Created sensor entity description: %s"
          [ArgDescription entity_description] ;;
  mret entity_description.

(** The loop of [create_sensors]; [entities] is the list built so far. *)
Fixpoint create_sensors_loop (keys : list string)
    (coordinator : EconetDataCoordinator) (api : Econet300Api)
    (entity_class : entity_class) (process_val : pyval -> res pyval)
    (filter_condition : string -> bool)
    (reg_data sys_data : gmap string pyval)
    (entities : list EconetSensor) : M (list EconetSensor) :=
  match keys with
  | [] => mret entities
  | key :: keys =>
      if negb (filter_condition key) then
        _LOGGER WARNING "Key: %s does not meet filter condition" [ArgStr key] ;;
        create_sensors_loop keys coordinator api entity_class process_val
          filter_condition reg_data sys_data entities
      else
        let value := Py.or (Py.get reg_data key) (Py.get sys_data key) in
        if Py.is_None value then
          _LOGGER WARNING
            "Data for key %s is None in both regParams and sysParams, skipping entity creation."
            [ArgStr key] ;;
          create_sensors_loop keys coordinator api entity_class process_val
            filter_condition reg_data sys_data entities
        else
          entity_desc ← create_entity_description key process_val;
          e ← call_entity_class entity_class entity_desc coordinator api;
          _LOGGER DEBUG "Created entity for key: %s" [ArgStr key] ;;
          create_sensors_loop keys coordinator api entity_class process_val
            filter_condition reg_data sys_data (entities ++ [e])
  end.

(** [create_sensors] *)
Definition create_sensors (keys : list string)
    (coordinator : EconetDataCoordinator) (api : Econet300Api)
    (entity_class : entity_class) (process_val : pyval -> res pyval)
    (filter_condition : string -> bool) : M (list EconetSensor) :=
  let entities := [] in
  let reg_data := data_get coordinator "regParams" in
  let sys_data := data_get coordinator "sysParams" in
  create_sensors_loop keys coordinator api entity_class process_val
    filter_condition reg_data sys_data entities.

(** The default of [filter_condition]: [lambda key: True]. *)
Definition accept_all (key : string) : bool := true.

(** [create_controller_sensors] *)
Definition create_controller_sensors (coordinator : EconetDataCoordinator)
    (api : Econet300Api) : M (list EconetSensor) :=
  keys ← subscript (SENSOR_MAP_KEY tbl) "_default";
  create_sensors keys coordinator api class_EconetSensor identity accept_all.

(** The local [mixer_filter] of [create_mixer_sensors]. *)
Definition mixer_filter (coordinator : EconetDataCoordinator) (key : string) : bool :=
  forallb
    (fun k => negb (Py.is_None (Py.get (data_get coordinator "regParams") k)))
    (items_get (SENSOR_MIXER_KEY tbl) key).

(** [create_mixer_sensors] *)
Definition create_mixer_sensors (coordinator : EconetDataCoordinator)
    (api : Econet300Api) : M (list EconetSensor) :=
  create_sensors (items_keys (SENSOR_MIXER_KEY tbl)) coordinator api
    class_MixerSensor identity (mixer_filter coordinator).

(** [create_lambda_sensors] *)
Definition create_lambda_sensors (coordinator : EconetDataCoordinator)
    (api : Econet300Api) : M (list EconetSensor) :=
  if Py.is_None (Py.get (data_get coordinator "sysParams") "moduleLambdaSoftVer") then
    _LOGGER INFO "moduleLambdaSoftVer is None, no lambda sensors will be created" [] ;;
    mret []
  else
    keys ← subscript (SENSOR_MAP_KEY tbl) "lambda";
    create_sensors keys coordinator api class_LambdaSensors Py.truediv10 accept_all.

(** [async_gather_entities] of [async_setup_entry] *)
Definition async_gather_entities (coordinator : EconetDataCoordinator)
    (api : Econet300Api) : M (list EconetSensor) :=
  controller ← create_controller_sensors coordinator api;
  mixer ← create_mixer_sensors coordinator api;
  lambda ← create_lambda_sensors coordinator api;
  mret ((([] ++ controller) ++ mixer) ++ lambda).

(** *** Vocabulary of the statements below *)

(** The descriptor [create_entity_description] assembles for a key. *)
Definition description_of (key : string) : EconetSensorEntityDescription :=
  {| key := key;
     device_class := ENTITY_SENSOR_DEVICE_CLASS_MAP tbl !! key;
     entity_category := ENTITY_CATEGORY tbl !! key;
     translation_key := camel_to_snake key;
     icon := ENTITY_ICON tbl !! key;
     native_unit_of_measurement := ENTITY_UNIT_MAP tbl !! key;
     state_class := default (Some MEASUREMENT) (STATE_CLASS_MAP tbl !! key);
     suggested_display_precision := default 0 (ENTITY_PRECISION tbl !! key);
     process_val := default identity (ENTITY_VALUE_PROCESSOR tbl !! key) |}.

(** The entity a three-argument class builds for a key. *)
Definition entity_of (c : entity_class) (coordinator : EconetDataCoordinator)
    (api : Econet300Api) (key : string) : EconetSensor :=
  {| class_of := c;
     entity_description := description_of key;
     coordinator_of := coordinator;
     api_of := api;
     _attr_native_value := PNone |}.

(** The key passes both tests of the loop body of [create_sensors]. *)
Definition reaches_creation (filter_condition : string -> bool)
    (reg_data sys_data : gmap string pyval) (key : string) : bool :=
  filter_condition key
  && negb (Py.is_None (Py.or (Py.get reg_data key) (Py.get sys_data key))).

(** The trace records that [create_entity_description] was entered for [k]. *)
Definition is_creating (k : string) (ev : event) : bool :=
  match ev with
  | Log DEBUG fmt [ArgStr s] =>
      String.eqb fmt "Creating sensor entity description for key: %s"
      && String.eqb s k
  | _ => false
  end.

Definition creation_attempted (k : string) (w : list event) : bool :=
  existsb (is_creating k) w.

End Sensor.

(** ** Concrete tables and snapshots *)

Module Sample.

(** A translation-key function for the samples (the key unchanged). *)
Definition snake (s : string) : string := s.

(** Tables with no metadata for any key: one controller key, one lambda key
    and one mixer group. *)
Definition tables : const :=
  {| ENTITY_CATEGORY := ∅;
     ENTITY_ICON := ∅;
     ENTITY_PRECISION := ∅;
     ENTITY_SENSOR_DEVICE_CLASS_MAP := ∅;
     ENTITY_UNIT_MAP := ∅;
     ENTITY_VALUE_PROCESSOR := ∅;
     SENSOR_MAP_KEY := {[ "_default" := ["tempCO"; "fanPower"; "mode"];
                          "lambda" := ["lambdaLevel"] ]};
     SENSOR_MIXER_KEY := [("1", ["mixerTemp1"; "mixerSetTemp1"])];
     STATE_CLASS_MAP := ∅ |}.

Definition snapshot (reg sys : gmap string pyval) : EconetDataCoordinator :=
  {| data := {[ "regParams" := reg; "sysParams" := sys ]} |}.

(** The lambda module is installed and reports level 120 (tenths). *)
Definition with_lambda : EconetDataCoordinator :=
  snapshot {[ "tempCO" := PInt 55 ]}
           {[ "moduleLambdaSoftVer" := PStr "0.1.3"; "lambdaLevel" := PInt 120 ]}.

(** The gating key is only in regParams. *)
Definition lambda_in_reg : EconetDataCoordinator :=
  snapshot {[ "moduleLambdaSoftVer" := PStr "0.1.3"; "lambdaLevel" := PInt 120 ]}
           {[ "lambdaLevel" := PInt 120 ]}.

(** A zero reading in regParams, a version string in sysParams. *)
Definition zero_in_reg : EconetDataCoordinator :=
  snapshot {[ "fanPower" := PInt 0; "tempCO" := PInt 55 ]}
           {[ "fanPower" := PInt 30 ]}.

(** Both sub-keys of the mixer group are in regParams. *)
Definition mixer_ready : EconetDataCoordinator :=
  snapshot {[ "tempCO" := PInt 55; "mixerTemp1" := PInt 40; "mixerSetTemp1" := PInt 35 ]} ∅.

(** As [mixer_ready], and regParams also has a register named as the mixer
    group. *)
Definition mixer_named : EconetDataCoordinator :=
  snapshot {[ "1" := PInt 1; "mixerTemp1" := PInt 40; "mixerSetTemp1" := PInt 35 ]} ∅.

(** One sub-key of the mixer group is only in sysParams. *)
Definition mixer_sub_in_sys : EconetDataCoordinator :=
  snapshot {[ "1" := PInt 1; "mixerTemp1" := PInt 40 ]} {[ "mixerSetTemp1" := PInt 35 ]}.

End Sample.

(** ** The rest of the module: the unused mixer test and the setup entry *)

(** [d[k]] on any dictionary with string keys. *)
Definition getitem {V : Type} (d : gmap string V) (k : string) : M V :=
  match d !! k with
  | Some v => mret v
  | None => raise (KeyError k)
  end.

(** The dictionary stored in [hass.data[DOMAIN][entry_id]], read at its two
    keys [SERVICE_COORDINATOR] and [SERVICE_API] (distinct constants of
    const.py); a field is [None] when the key is missing. *)
Record entry_services {Econet300Api : Type} : Type := {
  service_coordinator : option EconetDataCoordinator;
  service_api : option Econet300Api
}.
Arguments entry_services : clear implicits.

Section Setup.

Context {Econet300Api : Type}.
Variable camel_to_snake : string -> string.
Variable tbl : const.

(** [coordinator.has_reg_data] (common.py). *)
Variable has_reg_data : EconetDataCoordinator -> string -> bool.

(** [DOMAIN], [SERVICE_API] and [SERVICE_COORDINATOR] (const.py). *)
Variable DOMAIN : string.
Variable SERVICE_API : string.
Variable SERVICE_COORDINATOR : string.

(** [can_add_mixer] *)
Definition can_add_mixer (key : string) (coordinator : EconetDataCoordinator) : M bool :=
  _LOGGER DEBUG "Checking if mixer can be added for key: %s, data %s"
          [ArgStr key; ArgParams (data_get coordinator "regParams")] ;;
  mret (has_reg_data coordinator key
        && negb (Py.is_None (Py.get (data_get coordinator "regParams") key))).

(** [d[k]] at one of the two keys of the per-entry dictionary. *)
Definition service_item {V : Type} (field : option V) (k : string) : M V :=
  match field with
  | Some v => mret v
  | None => raise (KeyError k)
  end.

(** [async_setup_entry].  The callback [async_add_entities] acts on a state
    [S] of the host platform; the function returns its result and that
    state. *)
Definition async_setup_entry {S : Type}
    (hass_data : gmap string (gmap string (entry_services Econet300Api)))
    (entry_id : string)
    (async_add_entities : list (@EconetSensor Econet300Api) -> S -> S)
    (platform : S) : M (bool * S) :=
  by_domain ← getitem hass_data DOMAIN;
  by_entry ← getitem by_domain entry_id;
  coordinator ← service_item (service_coordinator by_entry) SERVICE_COORDINATOR;
  by_domain ← getitem hass_data DOMAIN;
  by_entry ← getitem by_domain entry_id;
  api ← service_item (service_api by_entry) SERVICE_API;
  entities ← async_gather_entities camel_to_snake tbl coordinator api;
  let platform := async_add_entities entities platform in
  mret (true, platform).

End Setup.

(** *** More vocabulary *)

(** The records one key adds to the log when the class takes the three
    arguments. *)
Definition key_log (camel_to_snake : string -> string) (tbl : const)
    (filter_condition : string -> bool) (reg_data sys_data : gmap string pyval)
    (key : string) : list event :=
  if reaches_creation filter_condition reg_data sys_data key then
    [Log DEBUG "Creating sensor entity description for key: %s" [ArgStr key];
     Log DEBUG "Created sensor entity description: %s"
         [ArgDescription (description_of camel_to_snake tbl key)];
     Log DEBUG "Created entity for key: %s" [ArgStr key]]
  else
    [Log WARNING
       (if filter_condition key
        then "Data for key %s is None in both regParams and sysParams, skipping entity creation."
        else "Key: %s does not meet filter condition")
       [ArgStr key]].

Definition is_warning (ev : event) : bool :=
  match ev with Log WARNING _ _ => true | _ => false end.

Definition is_log (ev : event) : bool :=
  match ev with Log _ _ _ => true | WriteHaState _ _ => false end.

(** The key of an entity. *)
Definition key_of {Econet300Api : Type} (e : @EconetSensor Econet300Api) : string :=
  key (entity_description e).

Module MoreSample.

Definition DOMAIN : string := "econet300".
Definition SERVICE_API : string := "api".
Definition SERVICE_COORDINATOR : string := "coordinator".

(** One configured entry with both services, one with the coordinator only. *)
Definition hass_data : gmap string (gmap string (entry_services unit)) :=
  {[ DOMAIN :=
       {[ "entry-1" := {| service_coordinator := Some Sample.with_lambda;
                          service_api := Some tt |};
          "entry-2" := {| service_coordinator := Some Sample.with_lambda;
                          service_api := None |} ]} ]}.

(** The platform keeps the batches it was given. *)
Definition add_batch (es : list (@EconetSensor unit))
    (batches : list (list (@EconetSensor unit))) : list (list (@EconetSensor unit)) :=
  batches ++ [es].

(** A zero reading in regParams and nothing in sysParams. *)
Definition zero_only : EconetDataCoordinator :=
  Sample.snapshot {[ "fanPower" := PInt 0; "tempCO" := PInt 55 ]} ∅.

(** [has_reg_data]: the key is in regParams. *)
Definition has_reg_data (c : EconetDataCoordinator) (k : string) : bool :=
  bool_decide (is_Some (data_get c "regParams" !! k)).

End MoreSample.

(** ** Function objects *)

(** Python compares functions by identity, and so does the [==] of the frozen
    dataclass on its field [process_val].  A transform object is either the one
    stored under a key of [ENTITY_VALUE_PROCESSOR] when const.py was imported,
    or the one made by the evaluation of a [lambda] expression, numbered in
    the order of creation. *)
Inductive function_object : Type :=
  | Imported (k : string)
  | Created (serial : nat).

Section SensorObjects.

Context {Econet300Api : Type}.
Variable camel_to_snake : string -> string.
Variable tbl : const.

(** An entity together with the object its descriptor holds in
    [process_val]. *)
Record sensor_object : Type := {
  sensor : @EconetSensor Econet300Api;
  process_val_object : function_object
}.

(** [create_entity_description], with the objects: the default
    [lambda x: x] of the [get] is evaluated at every call, before the lookup,
    and is the object of the descriptor when the table lacks the key.  [next]
    is the number of the next object created. *)
Definition create_entity_description_obj (key : string)
    (process_val : pyval -> res pyval) (next : nat)
  : M (EconetSensorEntityDescription * function_object * nat) :=
  _LOGGER DEBUG "Creating sensor entity description for key: %s" [ArgStr key] ;;
  let default_lambda := Created next in
  let next := S next in
  let object :=
    match ENTITY_VALUE_PROCESSOR tbl !! key with
    | Some _ => Imported key
    | None => default_lambda
    end in
  let entity_description :=
    {| key := key;
       device_class := ENTITY_SENSOR_DEVICE_CLASS_MAP tbl !! key;
       entity_category := ENTITY_CATEGORY tbl !! key;
       translation_key := camel_to_snake key;
       icon := ENTITY_ICON tbl !! key;
       native_unit_of_measurement := ENTITY_UNIT_MAP tbl !! key;
       state_class := default (Some MEASUREMENT) (STATE_CLASS_MAP tbl !! key);
       suggested_display_precision := default 0 (ENTITY_PRECISION tbl !! key);
       process_val := default identity (ENTITY_VALUE_PROCESSOR tbl !! key) |} in
  _LOGGER DEBUG "Created sensor entity description: %s"
          [ArgDescription entity_description] ;;
  mret (entity_description, object, next).

(** The loop of [create_sensors], with the objects. *)
Fixpoint create_sensors_loop_obj (keys : list string)
    (coordinator : EconetDataCoordinator) (api : Econet300Api)
    (entity_class : entity_class) (process_val : pyval -> res pyval)
    (filter_condition : string -> bool)
    (reg_data sys_data : gmap string pyval)
    (entities : list sensor_object) (next : nat) : M (list sensor_object * nat) :=
  match keys with
  | [] => mret (entities, next)
  | key :: keys =>
      if negb (filter_condition key) then
        _LOGGER WARNING "Key: %s does not meet filter condition" [ArgStr key] ;;
        create_sensors_loop_obj keys coordinator api entity_class process_val
          filter_condition reg_data sys_data entities next
      else
        let value := Py.or (Py.get reg_data key) (Py.get sys_data key) in
        if Py.is_None value then
          _LOGGER WARNING
            "Data for key %s is None in both regParams and sysParams, skipping entity creation."
            [ArgStr key] ;;
          create_sensors_loop_obj keys coordinator api entity_class process_val
            filter_condition reg_data sys_data entities next
        else
          '(entity_desc, object, next) ← create_entity_description_obj key process_val next;
          e ← call_entity_class entity_class entity_desc coordinator api;
          _LOGGER DEBUG "Created entity for key: %s" [ArgStr key] ;;
          create_sensors_loop_obj keys coordinator api entity_class process_val
            filter_condition reg_data sys_data
            (entities ++ [{| sensor := e; process_val_object := object |}]) next
  end.

(** [create_sensors], with the objects. *)
Definition create_sensors_obj (keys : list string)
    (coordinator : EconetDataCoordinator) (api : Econet300Api)
    (entity_class : entity_class) (process_val : pyval -> res pyval)
    (filter_condition : string -> bool) (next : nat) : M (list sensor_object * nat) :=
  let entities := [] in
  let reg_data := data_get coordinator "regParams" in
  let sys_data := data_get coordinator "sysParams" in
  create_sensors_loop_obj keys coordinator api entity_class process_val
    filter_condition reg_data sys_data entities next.

(** The eight data fields of two descriptors are equal. *)
Definition data_fields_eq (d1 d2 : EconetSensorEntityDescription) : Prop :=
  key d1 = key d2
  /\ device_class d1 = device_class d2
  /\ entity_category d1 = entity_category d2
  /\ translation_key d1 = translation_key d2
  /\ icon d1 = icon d2
  /\ native_unit_of_measurement d1 = native_unit_of_measurement d2
  /\ state_class d1 = state_class d2
  /\ suggested_display_precision d1 = suggested_display_precision d2.

(** [d1 == d2] on the descriptors of two entities: the dataclass compares
    field by field, and [process_val] by identity. *)
Definition descriptors_equal (e1 e2 : sensor_object) : Prop :=
  data_fields_eq (entity_description (sensor e1)) (entity_description (sensor e2))
  /\ process_val_object e1 = process_val_object e2.

(** The entities of a list of keys, the first default lambda being the
    object number [next]. *)
Fixpoint entities_from (c : entity_class) (coordinator : EconetDataCoordinator)
    (api : Econet300Api) (next : nat) (keys : list string) : list sensor_object :=
  match keys with
  | [] => []
  | k :: keys =>
      {| sensor := entity_of camel_to_snake tbl c coordinator api k;
         process_val_object :=
           match ENTITY_VALUE_PROCESSOR tbl !! k with
           | Some _ => Imported k
           | None => Created next
           end |}
      :: entities_from c coordinator api (S next) keys
  end.

End SensorObjects.

(** * Properties *)

(** ** Running the monad *)

Lemma run_bind {A B} (m : M A) (k : A -> M B) (w : list event) :
  (m ≫= k) w =
  match m w with
  | (Ok a, w') => k a w'
  | (Raise e, w') => (Raise e, w')
  end.
Proof. reflexivity. Qed.

Lemma run_mret {A} (a : A) (w : list event) : (mret a : M A) w = (Ok a, w).
Proof. reflexivity. Qed.

Lemma run_log_then {A} lvl fmt args (m : M A) (w : list event) :
  (_LOGGER lvl fmt args ;; m) w = m (w ++ [Log lvl fmt args]).
Proof. reflexivity. Qed.

Section SensorFacts.

Context {Econet300Api : Type}.
Variable camel_to_snake : string -> string.
Variable tbl : const.

Lemma run_create_entity_description key pv w :
  create_entity_description camel_to_snake tbl key pv w =
  (Ok (description_of camel_to_snake tbl key),
   w ++ [Log DEBUG "Creating sensor entity description for key: %s" [ArgStr key];
         Log DEBUG "Created sensor entity description: %s"
             [ArgDescription (description_of camel_to_snake tbl key)]]).
Proof.
  unfold create_entity_description.
  rewrite !run_log_then, run_mret, <- app_assoc. reflexivity.
Qed.

Lemma run_call_three c d coordinator (api : Econet300Api) w :
  init_arity c = 3%nat ->
  call_entity_class c d coordinator api w =
  (Ok {| class_of := c; entity_description := d; coordinator_of := coordinator;
         api_of := api; _attr_native_value := PNone |}, w).
Proof. intros H. unfold call_entity_class. rewrite H. reflexivity. Qed.

Lemma run_call_mixer d coordinator (api : Econet300Api) w :
  call_entity_class class_MixerSensor d coordinator api w =
  (Raise (TypeError
     "MixerSensor.__init__() missing 1 required positional argument: 'idx'"), w).
Proof. reflexivity. Qed.

Lemma init_arity_cases c : init_arity c = 3%nat \/ c = class_MixerSensor.
Proof. destruct c; auto. Qed.

(** One turn of the loop, by the two tests of its body. *)
Lemma loop_skip key keys coordinator (api : Econet300Api) c pv filt reg sys acc w :
  reaches_creation filt reg sys key = false ->
  create_sensors_loop camel_to_snake tbl (key :: keys) coordinator api c pv filt reg sys acc w =
  create_sensors_loop camel_to_snake tbl keys coordinator api c pv filt reg sys acc
    (w ++ [Log WARNING
             (if filt key
              then "Data for key %s is None in both regParams and sysParams, skipping entity creation."
              else "Key: %s does not meet filter condition")
             [ArgStr key]]).
Proof.
  unfold reaches_creation. intros H. cbn [create_sensors_loop].
  destruct (filt key); cbn [negb andb] in *.
  - apply negb_false_iff in H. rewrite H. by rewrite run_log_then.
  - by rewrite run_log_then.
Qed.

Lemma loop_create key keys coordinator (api : Econet300Api) c pv filt reg sys acc w :
  reaches_creation filt reg sys key = true ->
  create_sensors_loop camel_to_snake tbl (key :: keys) coordinator api c pv filt reg sys acc w =
  match call_entity_class c (description_of camel_to_snake tbl key) coordinator api
          (w ++ [Log DEBUG "Creating sensor entity description for key: %s" [ArgStr key];
                 Log DEBUG "Created sensor entity description: %s"
                     [ArgDescription (description_of camel_to_snake tbl key)]]) with
  | (Ok e, w') =>
      create_sensors_loop camel_to_snake tbl keys coordinator api c pv filt reg sys (acc ++ [e])
        (w' ++ [Log DEBUG "Created entity for key: %s" [ArgStr key]])
  | (Raise x, w') => (Raise x, w')
  end.
Proof.
  unfold reaches_creation. intros H. apply andb_true_iff in H as [Hf Hv].
  apply negb_true_iff in Hv. cbn [create_sensors_loop].
  rewrite Hf, Hv. cbn [negb].
  rewrite run_bind, run_create_entity_description, run_bind.
  destruct (call_entity_class _ _ _ _ _) as [[e|x] w']; [|reflexivity].
  rewrite run_log_then. reflexivity.
Qed.

(** Case analysis on the head of the key list. *)
Ltac loop_head key Hr :=
  match goal with
  | |- context [create_sensors_loop _ _ (key :: ?keys) ?co ?api ?c ?pv ?filt ?reg ?sys ?acc ?w] =>
      destruct (reaches_creation filt reg sys key) eqn:Hr;
      [ rewrite (loop_create key keys co api c pv filt reg sys acc w Hr)
      | rewrite (loop_skip key keys co api c pv filt reg sys acc w Hr) ]
  end.

(** A class whose initialiser takes the three arguments: the loop returns the
    entities of the keys that pass both tests, in order. *)
Lemma loop_outcome_three keys coordinator (api : Econet300Api) c pv filt reg sys :
  init_arity c = 3%nat ->
  forall acc w,
    outcome (create_sensors_loop camel_to_snake tbl keys coordinator api c pv
               filt reg sys acc) w =
    Ok (acc ++ (entity_of camel_to_snake tbl c coordinator api <$>
                filter (fun k => reaches_creation filt reg sys k = true) keys)).
Proof.
  intros Hc. induction keys as [|key keys IH]; intros acc w.
  - unfold outcome. cbn. by rewrite app_nil_r.
  - unfold outcome in *. loop_head key Hr.
    + rewrite run_call_three by done. rewrite IH.
      rewrite filter_cons_True by done. by rewrite <- app_assoc.
    + rewrite IH. rewrite filter_cons_False; [done | by rewrite Hr].
Qed.

(** [MixerSensor]: the first key that passes both tests raises. *)
Lemma loop_outcome_mixer keys coordinator (api : Econet300Api) pv filt reg sys :
  forall acc w,
    outcome (create_sensors_loop camel_to_snake tbl keys coordinator api
               class_MixerSensor pv filt reg sys acc) w =
    if existsb (reaches_creation filt reg sys) keys
    then Raise (TypeError
           "MixerSensor.__init__() missing 1 required positional argument: 'idx'")
    else Ok acc.
Proof.
  induction keys as [|key keys IH]; intros acc w; [done|].
  unfold outcome in *. cbn [existsb]. loop_head key Hr.
  - by rewrite run_call_mixer.
  - by rewrite IH.
Qed.

Lemma existsb_filter_nil {A} (f : A -> bool) (l : list A) :
  existsb f l = false -> filter (fun k => f k = true) l = [].
Proof.
  induction l as [|a l IH]; [done|]. cbn [existsb]. intros H.
  apply orb_false_iff in H as [Ha Hl].
  rewrite filter_cons_False; [auto | by rewrite Ha].
Qed.

(** Whatever the class, a returned list is the list of entities of the keys
    that pass both tests. *)
Lemma loop_outcome_Ok keys coordinator (api : Econet300Api) c pv filt reg sys acc w es :
  outcome (create_sensors_loop camel_to_snake tbl keys coordinator api c pv
             filt reg sys acc) w = Ok es ->
  es = acc ++ (entity_of camel_to_snake tbl c coordinator api <$>
               filter (fun k => reaches_creation filt reg sys k = true) keys).
Proof.
  destruct (init_arity_cases c) as [Hc | ->].
  - rewrite loop_outcome_three by done. congruence.
  - rewrite loop_outcome_mixer.
    destruct (existsb _ keys) eqn:Hex; [done|].
    rewrite existsb_filter_nil by done. cbn. rewrite app_nil_r. congruence.
Qed.

(** The outcome does not depend on the trace the call starts from. *)
Lemma loop_outcome_any_trace keys coordinator (api : Econet300Api) c pv filt reg sys acc w w' :
  outcome (create_sensors_loop camel_to_snake tbl keys coordinator api c pv
             filt reg sys acc) w =
  outcome (create_sensors_loop camel_to_snake tbl keys coordinator api c pv
             filt reg sys acc) w'.
Proof.
  destruct (init_arity_cases c) as [Hc | ->].
  - by rewrite !loop_outcome_three.
  - by rewrite !loop_outcome_mixer.
Qed.

(** The [process_val] argument is never used. *)
Lemma loop_any_process_val keys coordinator (api : Econet300Api) c pv pv' filt reg sys :
  forall acc w,
    create_sensors_loop camel_to_snake tbl keys coordinator api c pv filt reg sys acc w =
    create_sensors_loop camel_to_snake tbl keys coordinator api c pv' filt reg sys acc w.
Proof.
  induction keys as [|key keys IH]; intros acc w; [done|].
  destruct (reaches_creation filt reg sys key) eqn:Hr.
  - rewrite !loop_create by done.
    destruct (call_entity_class _ _ _ _ _) as [[e|x] w1]; [apply IH | done].
  - rewrite !loop_skip by done. apply IH.
Qed.

(** No creation is attempted for a key the filter rejects. *)
Lemma loop_no_attempt key keys coordinator (api : Econet300Api) c pv filt reg sys :
  filt key = false ->
  forall acc w,
    creation_attempted key w = false ->
    creation_attempted key
      (trace (create_sensors_loop camel_to_snake tbl keys coordinator api c pv
                filt reg sys acc) w) = false.
Proof.
  intros Hf. unfold creation_attempted, trace.
  induction keys as [|k keys IH]; intros acc w Hw; [done|].
  loop_head k Hr.
  - assert (is_creating key
              (Log DEBUG "Creating sensor entity description for key: %s" [ArgStr k])
            = false) as Hk.
    { cbn. apply String.eqb_neq. intros ->.
      unfold reaches_creation in Hr. by rewrite Hf in Hr. }
    destruct (init_arity_cases c) as [Hc | ->].
    + rewrite run_call_three by done. apply IH.
      rewrite !existsb_app, Hw. cbn [existsb]. by rewrite Hk.
    + rewrite run_call_mixer. cbn [snd].
      rewrite existsb_app, Hw. cbn [existsb]. by rewrite Hk.
  - apply IH. rewrite existsb_app, Hw. reflexivity.
Qed.

(** ** The factory as a whole *)

Lemma create_sensors_outcome_Ok keys coordinator (api : Econet300Api) c pv filt w es :
  outcome (create_sensors camel_to_snake tbl keys coordinator api c pv filt) w = Ok es ->
  es = entity_of camel_to_snake tbl c coordinator api <$>
       filter (fun k => reaches_creation filt (data_get coordinator "regParams")
                          (data_get coordinator "sysParams") k = true) keys.
Proof. unfold create_sensors. intros H. by apply loop_outcome_Ok in H. Qed.

Lemma create_sensors_outcome_three keys coordinator (api : Econet300Api) c pv filt w :
  init_arity c = 3%nat ->
  outcome (create_sensors camel_to_snake tbl keys coordinator api c pv filt) w =
  Ok (entity_of camel_to_snake tbl c coordinator api <$>
      filter (fun k => reaches_creation filt (data_get coordinator "regParams")
                         (data_get coordinator "sysParams") k = true) keys).
Proof. intros Hc. unfold create_sensors. by rewrite loop_outcome_three. Qed.

(** With [MixerSensor] the factory raises as soon as one key passes both
    tests, and returns the empty list otherwise. *)
Lemma create_sensors_outcome_mixer keys coordinator (api : Econet300Api) pv filt w :
  outcome (create_sensors camel_to_snake tbl keys coordinator api
             class_MixerSensor pv filt) w =
  if existsb (reaches_creation filt (data_get coordinator "regParams")
                (data_get coordinator "sysParams")) keys
  then Raise (TypeError
         "MixerSensor.__init__() missing 1 required positional argument: 'idx'")
  else Ok [].
Proof. unfold create_sensors. by rewrite loop_outcome_mixer. Qed.

Lemma entity_keys (c : entity_class) coordinator (api : Econet300Api) (l : list string) :
  (fun e => key (entity_description e)) <$>
    (entity_of camel_to_snake tbl c coordinator api <$> l) = l.
Proof. induction l as [|k l IH]; [done|]. cbn. by f_equal. Qed.

Lemma or_not_None a b :
  Py.is_None (Py.or a b) = false -> a <> PNone \/ b <> PNone.
Proof.
  unfold Py.or. destruct (Py.truthy a) eqn:Ha.
  - intros H. left. intros ->. discriminate.
  - intros H. right. intros ->. discriminate.
Qed.

Lemma falsy_get_or reg sys (k : string) :
  Py.truthy (Py.get reg k) = false ->
  Py.or (Py.get reg k) (Py.get sys k) = Py.get sys k.
Proof. unfold Py.or. by intros ->. Qed.

(** ** The descriptor builder *)

(** C7: for every key (so for every non-empty one) the descriptor builder
    returns a descriptor and raises nothing; for each metadata table that
    lacks the key the field takes its default: icon, entity category, unit
    and device class absent, precision 0, state class MEASUREMENT, transform
    the identity. *)
Theorem create_entity_description_defaults key pv w :
  exists d,
    outcome (create_entity_description camel_to_snake tbl key pv) w = Ok d
    /\ (ENTITY_ICON tbl !! key = None -> icon d = None)
    /\ (ENTITY_CATEGORY tbl !! key = None -> entity_category d = None)
    /\ (ENTITY_UNIT_MAP tbl !! key = None -> native_unit_of_measurement d = None)
    /\ (ENTITY_SENSOR_DEVICE_CLASS_MAP tbl !! key = None -> device_class d = None)
    /\ (ENTITY_PRECISION tbl !! key = None -> suggested_display_precision d = 0)
    /\ (STATE_CLASS_MAP tbl !! key = None -> state_class d = Some MEASUREMENT)
    /\ (ENTITY_VALUE_PROCESSOR tbl !! key = None -> process_val d = identity).
Proof.
  exists (description_of camel_to_snake tbl key). unfold outcome.
  rewrite run_create_entity_description. cbn.
  repeat split; intros ->; reflexivity.
Qed.

(** C10: the descriptor's transform is [ENTITY_VALUE_PROCESSOR.get(key)],
    the identity when the table lacks the key, whatever [process_val] is
    passed; neither [create_entity_description] nor [create_sensors] changes
    its result or its trace with that argument. *)
Theorem create_entity_description_ignores_process_val key pv w :
  (exists d,
     outcome (create_entity_description camel_to_snake tbl key pv) w = Ok d
     /\ process_val d = default identity (ENTITY_VALUE_PROCESSOR tbl !! key))
  /\ (forall pv',
        create_entity_description camel_to_snake tbl key pv' w =
        create_entity_description camel_to_snake tbl key pv w)
  /\ (forall keys coordinator (api : Econet300Api) c filt pv',
        create_sensors camel_to_snake tbl keys coordinator api c pv' filt w =
        create_sensors camel_to_snake tbl keys coordinator api c pv filt w).
Proof.
  split; [|split].
  - exists (description_of camel_to_snake tbl key). unfold outcome.
    by rewrite run_create_entity_description.
  - intros pv'. by rewrite !run_create_entity_description.
  - intros. unfold create_sensors. apply loop_any_process_val.
Qed.

(** ** Value synchronisation *)

(** C8: [_sync_state] stores the transform of the raw value as the native
    value, then asks the host platform to write the state, and leaves the
    descriptor and every other field as they were; when the transform
    raises, the exception passes through and nothing is written. *)
Theorem sync_state_applies_transform (self : @EconetSensor Econet300Api) raw w :
  match process_val (entity_description self) raw with
  | Ok v =>
      exists self',
        _sync_state self raw w =
          (Ok self', w ++ [WriteHaState (key (entity_description self)) v])
        /\ _attr_native_value self' = v
        /\ entity_description self' = entity_description self
        /\ class_of self' = class_of self
        /\ coordinator_of self' = coordinator_of self
        /\ api_of self' = api_of self
  | Raise e => _sync_state self raw w = (Raise e, w)
  end.
Proof.
  unfold _sync_state. rewrite run_bind. unfold lift.
  destruct (process_val (entity_description self) raw) as [v|e]; [|reflexivity].
  eexists. split; [reflexivity|]. cbn. auto.
Qed.

(** ** The generic factory *)

(** C2: when regParams maps the key to a falsy value (0, False, 0.0, the
    empty string, None) and sysParams maps it to a non-null value, the value
    [create_sensors] resolves is the one of sysParams, and the entity is
    created for the key. *)
Theorem falsy_regParams_falls_through coordinator (api : Econet300Api) c pv k r v w :
  data_get coordinator "regParams" !! k = Some r ->
  Py.truthy r = false ->
  data_get coordinator "sysParams" !! k = Some v ->
  v <> PNone ->
  Py.or (Py.get (data_get coordinator "regParams") k)
        (Py.get (data_get coordinator "sysParams") k) = v
  /\ (init_arity c = 3%nat ->
      exists e,
        outcome (create_sensors camel_to_snake tbl [k] coordinator api c pv accept_all) w
          = Ok [e]
        /\ key (entity_description e) = k).
Proof.
  intros Hr Hfalsy Hs Hv.
  assert (Py.or (Py.get (data_get coordinator "regParams") k)
                (Py.get (data_get coordinator "sysParams") k) = v) as Hval.
  { rewrite falsy_get_or; unfold Py.get; [by rewrite Hs | by rewrite Hr]. }
  split; [exact Hval|]. intros Hc.
  exists (entity_of camel_to_snake tbl c coordinator api k). split; [|reflexivity].
  rewrite create_sensors_outcome_three by done.
  rewrite filter_cons_True; [done|].
  unfold reaches_creation, accept_all. rewrite Hval. by destruct v.
Qed.

(** C6: [create_sensors] returns for the classes whose initialiser takes the
    three arguments; a returned list has at most [len(keys)] entities, their
    keys are a subsequence of [keys] (same relative order), they are
    pairwise distinct when the keys are, and the key of each entity
    resolves to a non-null value in regParams or in sysParams. *)
Theorem create_sensors_shape keys coordinator (api : Econet300Api) c pv filt w :
  (c <> class_MixerSensor ->
   exists es,
     outcome (create_sensors camel_to_snake tbl keys coordinator api c pv filt) w = Ok es)
  /\ forall es,
      outcome (create_sensors camel_to_snake tbl keys coordinator api c pv filt) w = Ok es ->
      (length es <= length keys)%nat
      /\ sublist ((fun e => key (entity_description e)) <$> es) keys
      /\ (NoDup keys -> NoDup ((fun e => key (entity_description e)) <$> es) /\ NoDup es)
      /\ (forall e, e ∈ es ->
            Py.get (data_get coordinator "regParams") (key (entity_description e)) <> PNone
            \/ Py.get (data_get coordinator "sysParams") (key (entity_description e)) <> PNone).
Proof.
  split.
  - intros Hc. destruct (init_arity_cases c) as [H3 | ->]; [|done].
    eexists. by apply create_sensors_outcome_three.
  - intros es Hes. apply create_sensors_outcome_Ok in Hes.
    set (P := fun k => reaches_creation filt (data_get coordinator "regParams")
                         (data_get coordinator "sysParams") k = true) in *.
    assert (sublist (filter P keys) keys) as Hsub by apply sublist_filter.
    assert ((fun e => key (entity_description e)) <$> es = filter P keys) as Hkeys.
    { subst es. apply entity_keys. }
    rewrite Hkeys. repeat split.
    + subst es. rewrite length_fmap. by apply sublist_length.
    + exact Hsub.
    + by eapply sublist_NoDup.
    + apply (NoDup_fmap_1 (fun e => key (entity_description e))).
      rewrite Hkeys. by eapply sublist_NoDup.
    + intros e He. subst es. apply list_elem_of_fmap in He as (k & -> & Hk).
      apply list_elem_of_filter in Hk as [Hk _]. unfold P, reaches_creation in Hk.
      apply andb_true_iff in Hk as [_ Hk]. apply negb_true_iff in Hk.
      cbn. by apply or_not_None.
Qed.

(** ** The specialised factories *)

(** C5: when sysParams has no entry "moduleLambdaSoftVer", or maps it to
    None, [create_lambda_sensors] logs one message and returns the empty
    list, whatever regParams holds and whatever the lambda keys resolve
    to. *)
Theorem create_lambda_sensors_gated coordinator (api : Econet300Api) w :
  data_get coordinator "sysParams" !! "moduleLambdaSoftVer" = None
  \/ data_get coordinator "sysParams" !! "moduleLambdaSoftVer" = Some PNone ->
  create_lambda_sensors camel_to_snake tbl coordinator api w =
  (Ok [],
   w ++ [Log INFO "moduleLambdaSoftVer is None, no lambda sensors will be created" []]).
Proof.
  intros H. unfold create_lambda_sensors, Py.get.
  destruct H as [-> | ->]; reflexivity.
Qed.

Lemma mixer_filter_spec coordinator mk :
  mixer_filter tbl coordinator mk = true <->
  forall k, k ∈ items_get (SENSOR_MIXER_KEY tbl) mk ->
            Py.get (data_get coordinator "regParams") k <> PNone.
Proof.
  unfold mixer_filter. rewrite forallb_forall. split.
  - intros H k Hk Hnone. apply list_elem_of_In, H in Hk. by rewrite Hnone in Hk.
  - intros H k Hk. apply list_elem_of_In, H in Hk.
    by destruct (Py.get (data_get coordinator "regParams") k).
Qed.

(** C3: a mixer key of which one dependent sub-key is missing or None in
    regParams is rejected by the filter of the mixer factory; the filter
    reads regParams alone, so it gives the same answer whatever sysParams
    holds; for such a key the factory never enters the descriptor builder and
    returns no entity. *)
Theorem mixer_key_needs_regParams coordinator (api : Econet300Api) mk k :
  k ∈ items_get (SENSOR_MIXER_KEY tbl) mk ->
  Py.get (data_get coordinator "regParams") k = PNone ->
  mixer_filter tbl coordinator mk = false
  /\ (forall coordinator',
        data_get coordinator' "regParams" = data_get coordinator "regParams" ->
        mixer_filter tbl coordinator' mk = mixer_filter tbl coordinator mk)
  /\ (forall w,
        creation_attempted mk w = false ->
        creation_attempted mk
          (trace (create_mixer_sensors camel_to_snake tbl coordinator api) w) = false)
  /\ (forall w es,
        outcome (create_mixer_sensors camel_to_snake tbl coordinator api) w = Ok es ->
        Forall (fun e => key (entity_description e) <> mk) es).
Proof.
  intros Hk Hnone.
  assert (mixer_filter tbl coordinator mk = false) as Hf.
  { apply not_true_is_false. intros Ht.
    by apply (proj1 (mixer_filter_spec coordinator mk) Ht k Hk). }
  split; [exact Hf|]. split; [|split].
  - intros coordinator' Hreg. unfold mixer_filter. by rewrite Hreg.
  - intros w Hw. unfold create_mixer_sensors, create_sensors.
    by apply loop_no_attempt.
  - intros w es Hes. unfold create_mixer_sensors in Hes.
    apply create_sensors_outcome_Ok in Hes. subst es.
    apply Forall_forall. intros e He.
    apply list_elem_of_fmap in He as (k' & -> & Hk').
    apply list_elem_of_filter in Hk' as [Hk' _]. cbn. intros ->.
    unfold reaches_creation in Hk'. by rewrite Hf in Hk'.
Qed.

(** The transform of every entity of the lambda factory comes from
    [ENTITY_VALUE_PROCESSOR], not from the division passed by the factory. *)
Lemma create_lambda_sensors_transform coordinator (api : Econet300Api) w es e :
  outcome (create_lambda_sensors camel_to_snake tbl coordinator api) w = Ok es ->
  e ∈ es ->
  process_val (entity_description e) =
  default identity (ENTITY_VALUE_PROCESSOR tbl !! key (entity_description e)).
Proof.
  unfold create_lambda_sensors.
  destruct (Py.is_None _).
  - unfold outcome. rewrite run_log_then, run_mret. cbn.
    intros [= <-] He. by apply elem_of_nil in He.
  - unfold outcome, subscript. rewrite run_bind.
    destruct (SENSOR_MAP_KEY tbl !! "lambda") as [keys|]; [|done].
    rewrite run_mret. intros Hes He.
    apply create_sensors_outcome_Ok in Hes. subst es.
    by apply list_elem_of_fmap in He as (k' & -> & _).
Qed.

End SensorFacts.

(** * The samples, evaluated *)

(** C1: with the lambda module installed and no entry for "lambdaLevel" in
    [ENTITY_VALUE_PROCESSOR], the entity of the lambda factory keeps the raw
    reading 120 on an update, while [raw / 10] is 12.0: the division the
    factory passes down does not reach the descriptor. *)
Theorem lambda_sensor_keeps_raw_value :
  exists e,
    outcome (create_lambda_sensors Sample.snake Sample.tables Sample.with_lambda tt) []
      = Ok [e]
    /\ key (entity_description e) = "lambdaLevel"
    /\ (exists e',
          outcome (_sync_state e (PInt 120)) [] = Ok e'
          /\ _attr_native_value e' = PInt 120)
    /\ Py.truediv10 (PInt 120) = Ok (PFloat 12%float)
    /\ process_val (entity_description e) (PInt 120) <> Py.truediv10 (PInt 120).
Proof.
  eexists. split; [vm_compute; reflexivity|].
  split; [reflexivity|]. split; [|split].
  - eexists. split; reflexivity.
  - vm_compute. reflexivity.
  - vm_compute. discriminate.
Qed.

(** C4: [create_sensors] called with the class [MixerSensor] on a key that
    passes the filter and resolves to a value raises TypeError, since the
    class's initialiser wants [idx]; so do the mixer factory and the
    gathering of all entities at setup. *)
Theorem create_sensors_raises_for_MixerSensor :
  outcome (create_sensors Sample.snake Sample.tables ["mixerTemp1"]
             Sample.mixer_ready tt class_MixerSensor identity accept_all) []
    = Raise (TypeError
        "MixerSensor.__init__() missing 1 required positional argument: 'idx'")
  /\ outcome (create_mixer_sensors Sample.snake Sample.tables Sample.mixer_named tt) []
    = Raise (TypeError
        "MixerSensor.__init__() missing 1 required positional argument: 'idx'")
  /\ outcome (async_gather_entities Sample.snake Sample.tables Sample.mixer_named tt) []
    = Raise (TypeError
        "MixerSensor.__init__() missing 1 required positional argument: 'idx'").
Proof. repeat split; vm_compute; reflexivity. Qed.

(** The other two classes on the same call: the entity is returned. *)
Example create_sensors_returns_for_EconetSensor :
  exists e,
    outcome (create_sensors Sample.snake Sample.tables ["mixerTemp1"]
               Sample.mixer_ready tt class_EconetSensor identity accept_all) []
      = Ok [e]
    /\ key (entity_description e) = "mixerTemp1".
Proof. eexists. split; [vm_compute; reflexivity | reflexivity]. Qed.

(** * Instances *)

Lemma create_entity_description_defaults_witness :
  exists d,
    outcome (create_entity_description Sample.snake Sample.tables "tempCO" Py.truediv10) []
      = Ok d
    /\ icon d = None /\ entity_category d = None
    /\ native_unit_of_measurement d = None /\ device_class d = None
    /\ suggested_display_precision d = 0
    /\ state_class d = Some MEASUREMENT
    /\ process_val d = identity.
Proof.
  destruct (create_entity_description_defaults Sample.snake Sample.tables
              "tempCO" Py.truediv10 [])
    as (d & Hd & Hi & Hc & Hu & Hdc & Hp & Hs & Hv).
  exists d. split; [exact Hd|].
  repeat split;
    [apply Hi | apply Hc | apply Hu | apply Hdc | apply Hp | apply Hs | apply Hv];
    reflexivity.
Defined.

Lemma falsy_regParams_falls_through_witness :
  Py.or (Py.get (data_get Sample.zero_in_reg "regParams") "fanPower")
        (Py.get (data_get Sample.zero_in_reg "sysParams") "fanPower") = PInt 30
  /\ exists e,
       outcome (create_sensors Sample.snake Sample.tables ["fanPower"]
                  Sample.zero_in_reg tt class_EconetSensor identity accept_all) []
         = Ok [e]
       /\ key (entity_description e) = "fanPower".
Proof.
  destruct (falsy_regParams_falls_through Sample.snake Sample.tables
              Sample.zero_in_reg tt class_EconetSensor identity
              "fanPower" (PInt 0) (PInt 30) []) as [Hv He].
  - vm_compute; reflexivity.
  - reflexivity.
  - vm_compute; reflexivity.
  - discriminate.
  - split; [exact Hv | apply He; reflexivity].
Defined.

Lemma mixer_key_needs_regParams_witness :
  mixer_filter Sample.tables Sample.mixer_sub_in_sys "1" = false
  /\ creation_attempted "1"
       (trace (create_mixer_sensors Sample.snake Sample.tables
                 Sample.mixer_sub_in_sys tt) []) = false.
Proof.
  destruct (mixer_key_needs_regParams Sample.snake Sample.tables
              Sample.mixer_sub_in_sys tt "1" "mixerSetTemp1")
    as (Hf & _ & Ht & _).
  - vm_compute. apply list_elem_of_In. right. left. reflexivity.
  - vm_compute; reflexivity.
  - split; [exact Hf | apply Ht; reflexivity].
Defined.

Lemma create_lambda_sensors_gated_witness :
  create_lambda_sensors Sample.snake Sample.tables Sample.lambda_in_reg tt [] =
  (Ok [], [Log INFO "moduleLambdaSoftVer is None, no lambda sensors will be created" []]).
Proof.
  apply (create_lambda_sensors_gated Sample.snake Sample.tables Sample.lambda_in_reg tt []).
  left. vm_compute; reflexivity.
Defined.

Lemma create_sensors_shape_witness :
  exists es,
    outcome (create_sensors Sample.snake Sample.tables ["tempCO"; "fanPower"; "mode"]
               Sample.zero_in_reg tt class_EconetSensor identity accept_all) [] = Ok es
    /\ (length es <= 3)%nat
    /\ sublist ((fun e => key (entity_description e)) <$> es) ["tempCO"; "fanPower"; "mode"]
    /\ NoDup es.
Proof.
  destruct (create_sensors_shape Sample.snake Sample.tables
              ["tempCO"; "fanPower"; "mode"] Sample.zero_in_reg tt
              class_EconetSensor identity accept_all []) as [Hret Hshape].
  destruct Hret as [es Hes]; [discriminate|].
  exists es. split; [exact Hes|].
  destruct (Hshape es Hes) as (Hlen & Hsub & Hnd & _).
  split; [exact Hlen|]. split; [exact Hsub|].
  apply Hnd. apply (bool_decide_unpack _). vm_compute. exact I.
Defined.


(** * The rest of the module *)

Lemma outcome_bind {A B} (m : M A) (k : A -> M B) (w : list event) :
  outcome (m ≫= k) w =
  match outcome m w with
  | Ok a => outcome (k a) (trace m w)
  | Raise e => Raise e
  end.
Proof.
  unfold outcome, trace. rewrite run_bind. by destruct (m w) as [[a|e] w'].
Qed.

Lemma or_is_None a b :
  Py.is_None (Py.or a b) = false <-> Py.truthy a = true \/ b <> PNone.
Proof.
  unfold Py.or. destruct (Py.truthy a) eqn:Ha.
  - split; [auto|]. intros _. by destruct a.
  - split.
    + intros H. right. by intros ->.
    + intros [?| H]; [done|]. by destruct b.
Qed.

Section FactoryFacts.

Context {Econet300Api : Type}.
Variable camel_to_snake : string -> string.
Variable tbl : const.

Lemma key_of_entities (c : entity_class) coordinator (api : Econet300Api)
    (l : list string) :
  key_of <$> (entity_of camel_to_snake tbl c coordinator api <$> l) = l.
Proof. induction l as [|k l IH]; [done|]. cbn. by f_equal. Qed.

(** The whole run of the loop for a class that takes the three arguments. *)
Lemma loop_run_three keys coordinator (api : Econet300Api) c pv filt reg sys :
  init_arity c = 3%nat ->
  forall acc w,
    create_sensors_loop camel_to_snake tbl keys coordinator api c pv filt reg sys acc w =
    (Ok (acc ++ (entity_of camel_to_snake tbl c coordinator api <$>
                 filter (fun k => reaches_creation filt reg sys k = true) keys)),
     w ++ flat_map (key_log camel_to_snake tbl filt reg sys) keys).
Proof.
  intros Hc. induction keys as [|k keys IH]; intros acc w.
  - cbn. by rewrite !app_nil_r.
  - cbn [flat_map]. unfold key_log at 1.
    destruct (reaches_creation filt reg sys k) eqn:Hr.
    + rewrite loop_create by done. rewrite run_call_three by done. rewrite IH.
      rewrite filter_cons_True by done. cbn. by rewrite <- !app_assoc.
    + rewrite loop_skip by done. rewrite IH.
      rewrite filter_cons_False by (by rewrite Hr). by rewrite <- !app_assoc.
Qed.

Lemma key_log_account filt reg sys (keys : list string) :
  (length (filter (fun k => reaches_creation filt reg sys k = true) keys)
   + length (List.filter is_warning
               (flat_map (key_log camel_to_snake tbl filt reg sys) keys)))%nat
  = length keys
  /\ forallb is_log (flat_map (key_log camel_to_snake tbl filt reg sys) keys) = true.
Proof.
  induction keys as [|k keys [IH1 IH2]]; [done|].
  cbn [flat_map]. rewrite List.filter_app, length_app, forallb_app, IH2.
  unfold key_log at 1 3.
  destruct (reaches_creation filt reg sys k) eqn:Hr.
  - rewrite filter_cons_True by done. cbn. split; [lia | done].
  - rewrite filter_cons_False by (by rewrite Hr). cbn. split; [lia | done].
Qed.

Lemma key_log_warning filt reg sys (keys : list string) k :
  k ∈ keys ->
  reaches_creation filt reg sys k = false ->
  Log WARNING
    (if filt k
     then "Data for key %s is None in both regParams and sysParams, skipping entity creation."
     else "Key: %s does not meet filter condition")
    [ArgStr k] ∈ flat_map (key_log camel_to_snake tbl filt reg sys) keys.
Proof.
  intros Hk Hr. apply list_elem_of_In, in_flat_map. exists k.
  split; [by apply list_elem_of_In|]. unfold key_log. rewrite Hr. by left.
Qed.

(** ** [create_sensors], further *)

(** X1: for a class whose initialiser takes the three arguments,
    [create_sensors] returns, and a key has an entity in the returned list
    exactly when it is one of the input keys, the filter accepts it, and its
    regParams value is truthy or its sysParams value is not None. *)
Theorem create_sensors_creates_exactly keys coordinator (api : Econet300Api) c pv filt w :
  init_arity c = 3%nat ->
  exists es,
    outcome (create_sensors camel_to_snake tbl keys coordinator api c pv filt) w = Ok es
    /\ forall k,
         k ∈ key_of <$> es <->
         k ∈ keys /\ filt k = true
         /\ (Py.truthy (Py.get (data_get coordinator "regParams") k) = true
             \/ Py.get (data_get coordinator "sysParams") k <> PNone).
Proof.
  intros Hc. eexists. split; [by apply create_sensors_outcome_three|].
  intros k. rewrite key_of_entities, list_elem_of_filter.
  unfold reaches_creation. rewrite andb_true_iff, negb_true_iff, or_is_None.
  tauto.
Qed.

(** X2: a key that the filter accepts, whose regParams value is falsy (a
    reading of 0, say) and which has no value in sysParams, gets no entity;
    with a class that takes the three arguments the log then holds the
    warning that the data is None in both mappings, for that key. *)
Theorem falsy_reading_without_fallback_dropped
    keys coordinator (api : Econet300Api) c pv filt k r w :
  data_get coordinator "regParams" !! k = Some r ->
  Py.truthy r = false ->
  Py.get (data_get coordinator "sysParams") k = PNone ->
  k ∈ keys ->
  filt k = true ->
  (forall es,
     outcome (create_sensors camel_to_snake tbl keys coordinator api c pv filt) w = Ok es ->
     k ∉ key_of <$> es)
  /\ (init_arity c = 3%nat ->
      Log WARNING
        "Data for key %s is None in both regParams and sysParams, skipping entity creation."
        [ArgStr k]
      ∈ trace (create_sensors camel_to_snake tbl keys coordinator api c pv filt) w).
Proof.
  intros Hr Hfalsy Hs Hk Hf.
  assert (reaches_creation filt (data_get coordinator "regParams")
            (data_get coordinator "sysParams") k = false) as Hno.
  { unfold reaches_creation. rewrite Hf. cbn [andb]. apply negb_false_iff.
    assert (Py.get (data_get coordinator "regParams") k = r) as Hg
      by (unfold Py.get; by rewrite Hr).
    unfold Py.or. by rewrite Hg, Hfalsy, Hs. }
  split.
  - intros es Hes. apply create_sensors_outcome_Ok in Hes. subst es.
    rewrite key_of_entities, list_elem_of_filter. intros [Hyes _]. congruence.
  - intros Hc. unfold trace, create_sensors. rewrite loop_run_three by done.
    cbn [snd]. apply elem_of_app. right.
    pose proof (key_log_warning filt _ _ keys k Hk Hno) as Hw.
    by rewrite Hf in Hw.
Qed.

(** X3: with a class that takes the three arguments, [create_sensors] only
    appends to the trace, what it appends are log records alone (no state is
    written to the host), and every input key is accounted for: the number of
    returned entities plus the number of warnings logged is [len(keys)]. *)
Theorem create_sensors_accounts_for_every_key
    keys coordinator (api : Econet300Api) c pv filt w :
  init_arity c = 3%nat ->
  exists es t,
    create_sensors camel_to_snake tbl keys coordinator api c pv filt w = (Ok es, w ++ t)
    /\ (length es + length (List.filter is_warning t))%nat = length keys
    /\ forallb is_log t = true.
Proof.
  intros Hc. unfold create_sensors. rewrite loop_run_three by done.
  eexists _, _. split; [reflexivity|].
  rewrite app_nil_l, length_fmap. apply key_log_account.
Qed.

(** X4: [create_sensors] on a concatenation of two key lists returns the
    concatenation of the lists it returns on each, and raises when either
    call raises, the first one taking precedence; the outcome of each call
    does not depend on the log it starts from. *)
Theorem create_sensors_app ks1 ks2 coordinator (api : Econet300Api) c pv filt w w1 w2 :
  outcome (create_sensors camel_to_snake tbl (ks1 ++ ks2) coordinator api c pv filt) w =
  match outcome (create_sensors camel_to_snake tbl ks1 coordinator api c pv filt) w1 with
  | Ok es1 =>
      match outcome (create_sensors camel_to_snake tbl ks2 coordinator api c pv filt) w2 with
      | Ok es2 => Ok (es1 ++ es2)
      | Raise e => Raise e
      end
  | Raise e => Raise e
  end.
Proof.
  destruct (init_arity_cases c) as [Hc | ->].
  - rewrite !create_sensors_outcome_three by done.
    by rewrite filter_app, fmap_app.
  - rewrite !create_sensors_outcome_mixer. rewrite existsb_app.
    by repeat destruct (existsb _ _).
Qed.

(** X5: every entity [create_sensors] returns has no native value yet
    (None), is of the class asked for, and holds the coordinator and the api
    passed; the value that was resolved for its key, which is not None, is
    not stored in it. *)
Theorem created_entities_have_no_value
    keys coordinator (api : Econet300Api) c pv filt w es e :
  outcome (create_sensors camel_to_snake tbl keys coordinator api c pv filt) w = Ok es ->
  e ∈ es ->
  _attr_native_value e = PNone
  /\ class_of e = c
  /\ coordinator_of e = coordinator
  /\ api_of e = api
  /\ Py.or (Py.get (data_get coordinator "regParams") (key_of e))
           (Py.get (data_get coordinator "sysParams") (key_of e)) <> PNone.
Proof.
  intros Hes He. apply create_sensors_outcome_Ok in Hes. subst es.
  apply list_elem_of_fmap in He as (k & -> & Hk).
  apply list_elem_of_filter in Hk as [Hk _]. cbn.
  repeat split. unfold reaches_creation in Hk.
  apply andb_true_iff in Hk as [_ Hk]. apply negb_true_iff in Hk.
  intros Hnone. unfold key_of in Hnone. cbn in Hnone. by rewrite Hnone in Hk.
Qed.

(** ** The three factories and their gathering *)

Lemma resolves_filter (reg sys : gmap string pyval) (keys : list string) :
  filter (fun k => reaches_creation accept_all reg sys k = true) keys =
  filter (fun k => Py.is_None (Py.or (Py.get reg k) (Py.get sys k)) = false) keys.
Proof.
  apply list_filter_iff. intros k. unfold reaches_creation, accept_all.
  cbn [andb]. apply negb_true_iff.
Qed.

Lemma create_controller_sensors_outcome coordinator (api : Econet300Api) w :
  outcome (create_controller_sensors camel_to_snake tbl coordinator api) w =
  match SENSOR_MAP_KEY tbl !! "_default" with
  | Some keys =>
      Ok (entity_of camel_to_snake tbl class_EconetSensor coordinator api <$>
          filter (fun k => Py.is_None
                             (Py.or (Py.get (data_get coordinator "regParams") k)
                                    (Py.get (data_get coordinator "sysParams") k)) = false)
                 keys)
  | None => Raise (KeyError "_default")
  end.
Proof.
  unfold create_controller_sensors. rewrite outcome_bind. unfold subscript.
  destruct (SENSOR_MAP_KEY tbl !! "_default") as [keys|]; [|done].
  cbn [outcome mret M_ret ret fst].
  rewrite create_sensors_outcome_three by done. by rewrite resolves_filter.
Qed.

Lemma create_mixer_sensors_outcome coordinator (api : Econet300Api) w :
  outcome (create_mixer_sensors camel_to_snake tbl coordinator api) w =
  if existsb (reaches_creation (mixer_filter tbl coordinator)
                (data_get coordinator "regParams") (data_get coordinator "sysParams"))
       (items_keys (SENSOR_MIXER_KEY tbl))
  then Raise (TypeError
         "MixerSensor.__init__() missing 1 required positional argument: 'idx'")
  else Ok [].
Proof. apply create_sensors_outcome_mixer. Qed.

Lemma create_lambda_sensors_outcome coordinator (api : Econet300Api) w :
  outcome (create_lambda_sensors camel_to_snake tbl coordinator api) w =
  if Py.is_None (Py.get (data_get coordinator "sysParams") "moduleLambdaSoftVer")
  then Ok []
  else
    match SENSOR_MAP_KEY tbl !! "lambda" with
    | Some keys =>
        Ok (entity_of camel_to_snake tbl class_LambdaSensors coordinator api <$>
            filter (fun k => Py.is_None
                               (Py.or (Py.get (data_get coordinator "regParams") k)
                                      (Py.get (data_get coordinator "sysParams") k)) = false)
                   keys)
    | None => Raise (KeyError "lambda")
    end.
Proof.
  unfold create_lambda_sensors. destruct (Py.is_None _); [done|].
  rewrite outcome_bind. unfold subscript.
  destruct (SENSOR_MAP_KEY tbl !! "lambda") as [keys|]; [|done].
  cbn [outcome mret M_ret ret fst].
  rewrite create_sensors_outcome_three by done. by rewrite resolves_filter.
Qed.

Lemma async_gather_entities_outcome coordinator (api : Econet300Api) w :
  outcome (async_gather_entities camel_to_snake tbl coordinator api) w =
  match outcome (create_controller_sensors camel_to_snake tbl coordinator api) w with
  | Ok controller =>
      match outcome (create_mixer_sensors camel_to_snake tbl coordinator api) w with
      | Ok mixer =>
          match outcome (create_lambda_sensors camel_to_snake tbl coordinator api) w with
          | Ok lambda => Ok (controller ++ mixer ++ lambda)
          | Raise e => Raise e
          end
      | Raise e => Raise e
      end
  | Raise e => Raise e
  end.
Proof.
  unfold async_gather_entities. rewrite outcome_bind.
  destruct (outcome (create_controller_sensors _ _ _ _) w) as [ces|e]; [|done].
  rewrite outcome_bind.
  rewrite (create_mixer_sensors_outcome coordinator api (trace _ w)).
  rewrite (create_mixer_sensors_outcome coordinator api w).
  destruct (existsb _ _); [done|].
  rewrite outcome_bind.
  rewrite (create_lambda_sensors_outcome coordinator api (trace _ _)).
  rewrite (create_lambda_sensors_outcome coordinator api w).
  destruct (if Py.is_None _ then _ else _) as [les|e]; [|done].
  cbn. by rewrite app_nil_r.
Qed.

Lemma Forall_class_entities c coordinator (api : Econet300Api) (l : list string) :
  Forall (fun e => class_of e = c)
         (entity_of camel_to_snake tbl c coordinator api <$> l).
Proof. apply Forall_fmap, Forall_forall. done. Qed.

(** X6: [create_mixer_sensors] never returns an entity: it returns the empty
    list or raises the TypeError of the [MixerSensor] initialiser, and it
    raises exactly when some key of [SENSOR_MIXER_KEY] passes the mixer filter
    and itself resolves to a value in regParams or sysParams. *)
Theorem create_mixer_sensors_never_returns_an_entity coordinator (api : Econet300Api) w :
  (forall es,
     outcome (create_mixer_sensors camel_to_snake tbl coordinator api) w = Ok es ->
     es = [])
  /\ (outcome (create_mixer_sensors camel_to_snake tbl coordinator api) w = Ok []
      \/ outcome (create_mixer_sensors camel_to_snake tbl coordinator api) w =
         Raise (TypeError
           "MixerSensor.__init__() missing 1 required positional argument: 'idx'"))
  /\ (outcome (create_mixer_sensors camel_to_snake tbl coordinator api) w =
      Raise (TypeError
        "MixerSensor.__init__() missing 1 required positional argument: 'idx'")
      <-> exists mk,
            mk ∈ items_keys (SENSOR_MIXER_KEY tbl)
            /\ mixer_filter tbl coordinator mk = true
            /\ (Py.truthy (Py.get (data_get coordinator "regParams") mk) = true
                \/ Py.get (data_get coordinator "sysParams") mk <> PNone)).
Proof.
  rewrite create_mixer_sensors_outcome.
  destruct (existsb _ _) eqn:Hex.
  - split; [done|]. split; [by right|]. split; [intros _|done].
    apply existsb_exists in Hex as (mk & Hin & Hr).
    exists mk. split; [by apply list_elem_of_In|].
    unfold reaches_creation in Hr. apply andb_true_iff in Hr as [Hf Hv].
    split; [done|]. by apply or_is_None, negb_true_iff.
  - split; [congruence|]. split; [by left|]. split; [done|].
    intros (mk & Hin & Hf & Hv). exfalso.
    assert (existsb (reaches_creation (mixer_filter tbl coordinator)
                       (data_get coordinator "regParams")
                       (data_get coordinator "sysParams"))
                    (items_keys (SENSOR_MIXER_KEY tbl)) = true) as Hyes.
    { apply existsb_exists. exists mk. split; [by apply list_elem_of_In|].
      unfold reaches_creation. rewrite Hf. cbn [andb].
      by apply negb_true_iff, or_is_None. }
    congruence.
Qed.

(** X7: [create_controller_sensors] raises KeyError("_default"), logging
    nothing, when [SENSOR_MAP_KEY] has no such entry; otherwise it returns
    one [EconetSensor] per default key that resolves to a value other than
    None, in the order of the table. *)
Theorem create_controller_sensors_spec coordinator (api : Econet300Api) w :
  match SENSOR_MAP_KEY tbl !! "_default" with
  | None =>
      create_controller_sensors camel_to_snake tbl coordinator api w =
      (Raise (KeyError "_default"), w)
  | Some keys =>
      exists es,
        outcome (create_controller_sensors camel_to_snake tbl coordinator api) w = Ok es
        /\ key_of <$> es =
           filter (fun k => Py.is_None
                              (Py.or (Py.get (data_get coordinator "regParams") k)
                                     (Py.get (data_get coordinator "sysParams") k)) = false)
                  keys
        /\ Forall (fun e => class_of e = class_EconetSensor) es
  end.
Proof.
  pose proof (create_controller_sensors_outcome coordinator api w) as H.
  destruct (SENSOR_MAP_KEY tbl !! "_default") as [keys|] eqn:Hl.
  2: { unfold create_controller_sensors, subscript. by rewrite Hl. }
  eexists. split; [exact H|]. split.
  - apply key_of_entities.
  - apply Forall_class_entities.
Qed.

(** X8: when sysParams maps "moduleLambdaSoftVer" to a value other than
    None, [create_lambda_sensors] raises KeyError("lambda"), logging nothing,
    if [SENSOR_MAP_KEY] has no such entry, and otherwise returns one
    [LambdaSensors] entity per lambda key that resolves to a value other than
    None, in the order of the table. *)
Theorem create_lambda_sensors_open coordinator (api : Econet300Api) w :
  Py.get (data_get coordinator "sysParams") "moduleLambdaSoftVer" <> PNone ->
  match SENSOR_MAP_KEY tbl !! "lambda" with
  | None =>
      create_lambda_sensors camel_to_snake tbl coordinator api w =
      (Raise (KeyError "lambda"), w)
  | Some keys =>
      exists es,
        outcome (create_lambda_sensors camel_to_snake tbl coordinator api) w = Ok es
        /\ key_of <$> es =
           filter (fun k => Py.is_None
                              (Py.or (Py.get (data_get coordinator "regParams") k)
                                     (Py.get (data_get coordinator "sysParams") k)) = false)
                  keys
        /\ Forall (fun e => class_of e = class_LambdaSensors) es
  end.
Proof.
  intros Hgate.
  assert (Py.is_None (Py.get (data_get coordinator "sysParams") "moduleLambdaSoftVer")
          = false) as Hopen by (by destruct (Py.get _ _)).
  pose proof (create_lambda_sensors_outcome coordinator api w) as H.
  rewrite Hopen in H.
  destruct (SENSOR_MAP_KEY tbl !! "lambda") as [keys|] eqn:Hl.
  2: { unfold create_lambda_sensors, subscript. by rewrite Hopen, Hl. }
  eexists. split; [exact H|]. split.
  - apply key_of_entities.
  - apply Forall_class_entities.
Qed.

(** X9: [async_gather_entities] returns exactly when the three factories
    return, which needs the mixer factory to return the empty list; the list
    is then the controller entities followed by the lambda entities. *)
Theorem async_gather_entities_returns coordinator (api : Econet300Api) w es :
  outcome (async_gather_entities camel_to_snake tbl coordinator api) w = Ok es <->
  exists controller lambda,
    outcome (create_controller_sensors camel_to_snake tbl coordinator api) w = Ok controller
    /\ outcome (create_mixer_sensors camel_to_snake tbl coordinator api) w = Ok []
    /\ outcome (create_lambda_sensors camel_to_snake tbl coordinator api) w = Ok lambda
    /\ es = controller ++ lambda
    /\ Forall (fun e => class_of e = class_EconetSensor) controller
    /\ Forall (fun e => class_of e = class_LambdaSensors) lambda.
Proof.
  rewrite async_gather_entities_outcome. split.
  - pose proof (create_controller_sensors_outcome coordinator api w) as Hc.
    pose proof (create_mixer_sensors_outcome coordinator api w) as Hm.
    pose proof (create_lambda_sensors_outcome coordinator api w) as Hl.
    destruct (outcome (create_controller_sensors _ _ _ _) w) as [ces|]; [|done].
    destruct (outcome (create_mixer_sensors _ _ _ _) w) as [mes|]; [|done].
    destruct (outcome (create_lambda_sensors _ _ _ _) w) as [les|]; [|done].
    intros [= <-].
    assert (mes = []) as -> by (destruct (existsb _ _); congruence).
    exists ces, les. repeat split.
    + destruct (SENSOR_MAP_KEY tbl !! "_default"); [|done].
      injection Hc as ->. apply Forall_class_entities.
    + destruct (Py.is_None _); [injection Hl as ->; constructor|].
      destruct (SENSOR_MAP_KEY tbl !! "lambda"); [|done].
      injection Hl as ->. apply Forall_class_entities.
  - intros (ces & les & -> & -> & -> & -> & _). reflexivity.
Qed.

End FactoryFacts.

Section SyncFacts.

Context {Econet300Api : Type}.
Variable camel_to_snake : string -> string.
Variable tbl : const.

Lemma run_sync_state (self : @EconetSensor Econet300Api) raw w :
  _sync_state self raw w =
  match process_val (entity_description self) raw with
  | Ok v =>
      (Ok {| class_of := class_of self;
             entity_description := entity_description self;
             coordinator_of := coordinator_of self;
             api_of := api_of self;
             _attr_native_value := v |},
       w ++ [WriteHaState (key (entity_description self)) v])
  | Raise e => (Raise e, w)
  end.
Proof.
  unfold _sync_state. rewrite run_bind. unfold lift.
  by destruct (process_val (entity_description self) raw).
Qed.

(** X10: of two successive updates of an entity the last one decides the
    value: the entity after both equals the entity after the second alone,
    and the host is asked to write the state once per update, in order. *)
Theorem sync_state_last_value_wins (self : @EconetSensor Econet300Api) raw1 raw2 v1 v2 w :
  process_val (entity_description self) raw1 = Ok v1 ->
  process_val (entity_description self) raw2 = Ok v2 ->
  exists self1 self2,
    _sync_state self raw1 w = (Ok self1, w ++ [WriteHaState (key_of self) v1])
    /\ _sync_state self1 raw2 (w ++ [WriteHaState (key_of self) v1]) =
       (Ok self2, w ++ [WriteHaState (key_of self) v1; WriteHaState (key_of self) v2])
    /\ outcome (_sync_state self raw2) w = Ok self2.
Proof.
  intros H1 H2. unfold outcome, key_of. rewrite !run_sync_state, H1, H2.
  eexists _, _. split; [reflexivity|].
  rewrite run_sync_state. cbn [entity_description]. rewrite H2.
  split; [by rewrite <- app_assoc | reflexivity].
Qed.

(** X11: an entity returned by [create_sensors], whatever transform was
    passed to the factory, whose key has no entry in
    [ENTITY_VALUE_PROCESSOR], stores every raw value unchanged on an update
    and never raises. *)
Theorem entity_without_processor_stores_raw
    keys coordinator (api : Econet300Api) c pv filt w es e raw w' :
  outcome (create_sensors camel_to_snake tbl keys coordinator api c pv filt) w = Ok es ->
  e ∈ es ->
  ENTITY_VALUE_PROCESSOR tbl !! key_of e = None ->
  exists e',
    _sync_state e raw w' = (Ok e', w' ++ [WriteHaState (key_of e) raw])
    /\ _attr_native_value e' = raw
    /\ entity_description e' = entity_description e.
Proof.
  intros Hes He Hnone. apply create_sensors_outcome_Ok in Hes. subst es.
  apply list_elem_of_fmap in He as (k & -> & _).
  unfold key_of in *. cbn in Hnone.
  rewrite run_sync_state. cbn. rewrite Hnone. cbn.
  eexists. split; [reflexivity|]. done.
Qed.

End SyncFacts.

Lemma run_getitem_Some {V B} (d : gmap string V) k v (f : V -> M B) w :
  d !! k = Some v -> (getitem d k ≫= f) w = f v w.
Proof. intros H. unfold getitem. by rewrite H. Qed.

Lemma run_getitem_None {V B} (d : gmap string V) k (f : V -> M B) w :
  d !! k = None -> (getitem d k ≫= f) w = (Raise (KeyError k), w).
Proof. intros H. unfold getitem. by rewrite H. Qed.

Lemma run_service_item_Some {V B} (field : option V) k v (f : V -> M B) w :
  field = Some v -> (service_item field k ≫= f) w = f v w.
Proof. by intros ->. Qed.

Lemma run_service_item_None {V B} (field : option V) k (f : V -> M B) w :
  field = None -> (service_item field k ≫= f) w = (Raise (KeyError k), w).
Proof. by intros ->. Qed.

Section SetupFacts.

Context {Econet300Api : Type}.
Variable camel_to_snake : string -> string.
Variable tbl : const.
Variable has_reg_data : EconetDataCoordinator -> string -> bool.
Variable DOMAIN : string.
Variable SERVICE_API : string.
Variable SERVICE_COORDINATOR : string.

(** X12: when [hass.data] holds the coordinator and the api of the entry,
    [async_setup_entry] gathers the entities, hands them to
    [async_add_entities] in one call and returns True; when the gathering
    raises, the exception passes through and the callback is not called.  It
    adds nothing to the trace beyond what the gathering logs. *)
Theorem async_setup_entry_registers_once {S : Type}
    (hass_data : gmap string (gmap string (entry_services Econet300Api)))
    entry_id (add : list (@EconetSensor Econet300Api) -> S -> S) (platform : S)
    by_domain services coordinator api w :
  hass_data !! DOMAIN = Some by_domain ->
  by_domain !! entry_id = Some services ->
  service_coordinator services = Some coordinator ->
  service_api services = Some api ->
  outcome (async_setup_entry camel_to_snake tbl DOMAIN SERVICE_API SERVICE_COORDINATOR
             hass_data entry_id add platform) w =
  match outcome (async_gather_entities camel_to_snake tbl coordinator api) w with
  | Ok entities => Ok (true, add entities platform)
  | Raise e => Raise e
  end
  /\ trace (async_setup_entry camel_to_snake tbl DOMAIN SERVICE_API SERVICE_COORDINATOR
              hass_data entry_id add platform) w =
     trace (async_gather_entities camel_to_snake tbl coordinator api) w.
Proof.
  intros Hd He Hc Ha. unfold outcome, trace, async_setup_entry.
  rewrite (run_getitem_Some _ _ _ _ _ Hd), (run_getitem_Some _ _ _ _ _ He),
    (run_service_item_Some _ _ _ _ _ Hc), (run_getitem_Some _ _ _ _ _ Hd),
    (run_getitem_Some _ _ _ _ _ He), (run_service_item_Some _ _ _ _ _ Ha).
  rewrite run_bind.
  by destruct (async_gather_entities _ _ _ _ _) as [[es|e] w1].
Qed.

(** X13: [async_setup_entry] raises KeyError for the first missing
    subscript, in the order domain, entry id, coordinator key, api key,
    before any factory runs: the trace is unchanged. *)
Theorem async_setup_entry_missing_service {S : Type}
    (hass_data : gmap string (gmap string (entry_services Econet300Api)))
    entry_id (add : list (@EconetSensor Econet300Api) -> S -> S) (platform : S) w :
  (hass_data !! DOMAIN = None ->
   async_setup_entry camel_to_snake tbl DOMAIN SERVICE_API SERVICE_COORDINATOR
     hass_data entry_id add platform w = (Raise (KeyError DOMAIN), w))
  /\ (forall by_domain,
        hass_data !! DOMAIN = Some by_domain ->
        by_domain !! entry_id = None ->
        async_setup_entry camel_to_snake tbl DOMAIN SERVICE_API SERVICE_COORDINATOR
          hass_data entry_id add platform w = (Raise (KeyError entry_id), w))
  /\ (forall by_domain services,
        hass_data !! DOMAIN = Some by_domain ->
        by_domain !! entry_id = Some services ->
        service_coordinator services = None ->
        async_setup_entry camel_to_snake tbl DOMAIN SERVICE_API SERVICE_COORDINATOR
          hass_data entry_id add platform w = (Raise (KeyError SERVICE_COORDINATOR), w))
  /\ (forall by_domain services coordinator,
        hass_data !! DOMAIN = Some by_domain ->
        by_domain !! entry_id = Some services ->
        service_coordinator services = Some coordinator ->
        service_api services = None ->
        async_setup_entry camel_to_snake tbl DOMAIN SERVICE_API SERVICE_COORDINATOR
          hass_data entry_id add platform w = (Raise (KeyError SERVICE_API), w)).
Proof.
  unfold async_setup_entry. repeat split.
  - intros Hd. by rewrite (run_getitem_None _ _ _ _ Hd).
  - intros by_domain Hd He.
    by rewrite (run_getitem_Some _ _ _ _ _ Hd), (run_getitem_None _ _ _ _ He).
  - intros by_domain services Hd He Hc.
    by rewrite (run_getitem_Some _ _ _ _ _ Hd), (run_getitem_Some _ _ _ _ _ He),
      (run_service_item_None _ _ _ _ Hc).
  - intros by_domain services coordinator Hd He Hc Ha.
    by rewrite (run_getitem_Some _ _ _ _ _ Hd), (run_getitem_Some _ _ _ _ _ He),
      (run_service_item_Some _ _ _ _ _ Hc), (run_getitem_Some _ _ _ _ _ Hd),
      (run_getitem_Some _ _ _ _ _ He), (run_service_item_None _ _ _ _ Ha).
Qed.

(** X14: [can_add_mixer] returns True for every dependent sub-key of a mixer
    key exactly when the mixer filter accepts that key and
    [coordinator.has_reg_data] holds for every sub-key: the filter of the
    mixer factory is [can_add_mixer] without the [has_reg_data] test. *)
Theorem can_add_mixer_and_mixer_filter coordinator mk w :
  (forall k, k ∈ items_get (SENSOR_MIXER_KEY tbl) mk ->
             outcome (can_add_mixer has_reg_data k coordinator) w = Ok true)
  <-> mixer_filter tbl coordinator mk = true
      /\ forall k, k ∈ items_get (SENSOR_MIXER_KEY tbl) mk ->
                   has_reg_data coordinator k = true.
Proof.
  rewrite mixer_filter_spec. unfold can_add_mixer, outcome.
  setoid_rewrite run_log_then. setoid_rewrite run_mret. cbn [fst].
  split.
  - intros H. split; intros k Hk; specialize (H k Hk);
      injection H as H; apply andb_true_iff in H as [Hh Hv]; [|done].
    intros Hnone. by rewrite Hnone in Hv.
  - intros [Hf Hh] k Hk. rewrite (Hh k Hk). cbn [andb]. f_equal.
    apply negb_true_iff. specialize (Hf k Hk).
    by destruct (Py.get _ k).
Qed.

End SetupFacts.

(** * Instances for the rest of the module *)

Lemma create_sensors_creates_exactly_witness :
  exists es,
    outcome (create_sensors Sample.snake Sample.tables ["tempCO"; "fanPower"; "mode"]
               Sample.zero_in_reg tt class_EconetSensor identity accept_all) [] = Ok es
    /\ "fanPower" ∈ @key_of unit <$> es
    /\ "mode" ∉ @key_of unit <$> es.
Proof.
  destruct (create_sensors_creates_exactly Sample.snake Sample.tables
              ["tempCO"; "fanPower"; "mode"] Sample.zero_in_reg tt
              class_EconetSensor identity accept_all [] eq_refl) as (es & Hes & Hiff).
  exists es. split; [exact Hes|]. split.
  - apply Hiff. split; [apply list_elem_of_In; cbn; auto|].
    split; [reflexivity|]. right. vm_compute. discriminate.
  - intros H. apply Hiff in H as (_ & _ & [H | H]).
    + vm_compute in H. discriminate.
    + apply H. vm_compute. reflexivity.
Defined.

Lemma falsy_reading_without_fallback_dropped_witness :
  (forall es,
     outcome (create_sensors Sample.snake Sample.tables ["tempCO"; "fanPower"]
                MoreSample.zero_only tt class_EconetSensor identity accept_all) [] = Ok es ->
     "fanPower" ∉ @key_of unit <$> es)
  /\ Log WARNING
       "Data for key %s is None in both regParams and sysParams, skipping entity creation."
       [ArgStr "fanPower"]
     ∈ trace (create_sensors Sample.snake Sample.tables ["tempCO"; "fanPower"]
                MoreSample.zero_only tt class_EconetSensor identity accept_all) [].
Proof.
  destruct (falsy_reading_without_fallback_dropped Sample.snake Sample.tables
              ["tempCO"; "fanPower"] MoreSample.zero_only tt class_EconetSensor
              identity accept_all "fanPower" (PInt 0) []) as [Hno Hlog].
  - vm_compute. reflexivity.
  - reflexivity.
  - vm_compute. reflexivity.
  - apply list_elem_of_In. cbn. auto.
  - reflexivity.
  - split; [exact Hno | apply Hlog; reflexivity].
Defined.

Lemma create_sensors_accounts_for_every_key_witness :
  exists es t,
    create_sensors Sample.snake Sample.tables ["tempCO"; "fanPower"; "mode"]
      MoreSample.zero_only tt class_EconetSensor identity accept_all [] = (Ok es, [] ++ t)
    /\ (length es + length (List.filter is_warning t))%nat = 3%nat.
Proof.
  destruct (create_sensors_accounts_for_every_key Sample.snake Sample.tables
              ["tempCO"; "fanPower"; "mode"] MoreSample.zero_only tt
              class_EconetSensor identity accept_all [] eq_refl)
    as (es & t & Hrun & Hcount & _).
  exists es, t. split; [exact Hrun | exact Hcount].
Defined.

Lemma created_entities_have_no_value_witness :
  exists e : @EconetSensor unit,
    key_of e = "fanPower"
    /\ _attr_native_value e = PNone
    /\ class_of e = class_LambdaSensors
    /\ Py.or (Py.get (data_get Sample.zero_in_reg "regParams") (key_of e))
             (Py.get (data_get Sample.zero_in_reg "sysParams") (key_of e)) <> PNone.
Proof.
  exists (entity_of Sample.snake Sample.tables class_LambdaSensors
            Sample.zero_in_reg tt "fanPower").
  split; [reflexivity|].
  destruct (created_entities_have_no_value Sample.snake Sample.tables
              ["fanPower"; "mode"] Sample.zero_in_reg tt class_LambdaSensors
              Py.truediv10 accept_all []
              [entity_of Sample.snake Sample.tables class_LambdaSensors
                 Sample.zero_in_reg tt "fanPower"]
              (entity_of Sample.snake Sample.tables class_LambdaSensors
                 Sample.zero_in_reg tt "fanPower"))
    as (Hv & Hc & _ & _ & Hr).
  - vm_compute. reflexivity.
  - apply list_elem_of_In. left. reflexivity.
  - split; [exact Hv|]. split; [exact Hc | exact Hr].
Defined.

Lemma create_mixer_sensors_never_returns_an_entity_witness :
  outcome (create_mixer_sensors Sample.snake Sample.tables Sample.mixer_named tt) [] =
    Raise (TypeError
      "MixerSensor.__init__() missing 1 required positional argument: 'idx'")
  /\ forall es,
       outcome (create_mixer_sensors Sample.snake Sample.tables Sample.mixer_ready tt) []
         = Ok es -> es = [].
Proof.
  split.
  - apply (create_mixer_sensors_never_returns_an_entity Sample.snake Sample.tables
             Sample.mixer_named tt []).
    exists "1". split; [apply list_elem_of_In; left; reflexivity|].
    split; [vm_compute; reflexivity|]. left. vm_compute. reflexivity.
  - apply (create_mixer_sensors_never_returns_an_entity Sample.snake Sample.tables
             Sample.mixer_ready tt []).
Defined.

Lemma create_lambda_sensors_open_witness :
  exists es,
    outcome (create_lambda_sensors Sample.snake Sample.tables Sample.with_lambda tt) []
      = Ok es
    /\ @key_of unit <$> es =
       filter (fun k => Py.is_None
                          (Py.or (Py.get (data_get Sample.with_lambda "regParams") k)
                                 (Py.get (data_get Sample.with_lambda "sysParams") k))
                        = false)
              ["lambdaLevel"]
    /\ Forall (fun e => class_of e = class_LambdaSensors) es.
Proof.
  assert (SENSOR_MAP_KEY Sample.tables !! "lambda" = Some ["lambdaLevel"]) as Hl
    by (vm_compute; reflexivity).
  pose proof (create_lambda_sensors_open Sample.snake Sample.tables
                Sample.with_lambda tt []) as H.
  rewrite Hl in H. apply H. vm_compute. discriminate.
Defined.

Lemma async_gather_entities_returns_witness :
  exists controller lambda,
    outcome (create_controller_sensors Sample.snake Sample.tables Sample.with_lambda tt) []
      = Ok controller
    /\ outcome (create_lambda_sensors Sample.snake Sample.tables Sample.with_lambda tt) []
      = Ok lambda
    /\ (@key_of unit <$> controller) ++ (@key_of unit <$> lambda) = ["tempCO"; "lambdaLevel"].
Proof.
  destruct (proj1 (async_gather_entities_returns Sample.snake Sample.tables
                     Sample.with_lambda tt []
                     [entity_of Sample.snake Sample.tables class_EconetSensor
                        Sample.with_lambda tt "tempCO";
                      entity_of Sample.snake Sample.tables class_LambdaSensors
                        Sample.with_lambda tt "lambdaLevel"]))
    as (ces & les & Hc & _ & Hl & Hes & _).
  - vm_compute. reflexivity.
  - exists ces, les. split; [exact Hc|]. split; [exact Hl|].
    rewrite <- fmap_app, <- Hes. reflexivity.
Defined.

Lemma sync_state_last_value_wins_witness :
  exists self1 self2,
    outcome (_sync_state (entity_of Sample.snake Sample.tables class_EconetSensor
                            Sample.with_lambda tt "tempCO") (PInt 55)) [] = Ok self1
    /\ outcome (_sync_state self1 (PInt 56)) [WriteHaState "tempCO" (PInt 55)] = Ok self2
    /\ _attr_native_value self2 = PInt 56.
Proof.
  destruct (sync_state_last_value_wins
              (entity_of Sample.snake Sample.tables class_EconetSensor
                 Sample.with_lambda tt "tempCO")
              (PInt 55) (PInt 56) (PInt 55) (PInt 56) [] eq_refl eq_refl)
    as (self1 & self2 & H1 & H2 & H3).
  exists self1, self2. unfold outcome. rewrite H1.
  split; [reflexivity|]. change ([] ++ ?l) with l in H2.
  change (key_of _) with "tempCO" in H2. rewrite H2.
  split; [reflexivity|]. vm_compute in H3. by injection H3 as <-.
Defined.

Lemma entity_without_processor_stores_raw_witness :
  exists e',
    _sync_state (entity_of Sample.snake Sample.tables class_LambdaSensors
                   Sample.with_lambda tt "lambdaLevel") (PInt 120) [] =
      (Ok e', [WriteHaState "lambdaLevel" (PInt 120)])
    /\ _attr_native_value e' = PInt 120.
Proof.
  destruct (entity_without_processor_stores_raw Sample.snake Sample.tables
              ["lambdaLevel"] Sample.with_lambda tt class_LambdaSensors
              Py.truediv10 accept_all []
              [entity_of Sample.snake Sample.tables class_LambdaSensors
                 Sample.with_lambda tt "lambdaLevel"]
              (entity_of Sample.snake Sample.tables class_LambdaSensors
                 Sample.with_lambda tt "lambdaLevel")
              (PInt 120) [])
    as (e' & Hrun & Hv & _).
  - vm_compute. reflexivity.
  - apply list_elem_of_In. left. reflexivity.
  - vm_compute. reflexivity.
  - exists e'. split; [exact Hrun | exact Hv].
Defined.

Lemma async_setup_entry_registers_once_witness :
  exists es,
    outcome (async_setup_entry Sample.snake Sample.tables MoreSample.DOMAIN
               MoreSample.SERVICE_API MoreSample.SERVICE_COORDINATOR
               MoreSample.hass_data "entry-1" MoreSample.add_batch []) [] =
      Ok (true, [es])
    /\ @key_of unit <$> es = ["tempCO"; "lambdaLevel"].
Proof.
  destruct (async_setup_entry_registers_once Sample.snake Sample.tables
              MoreSample.DOMAIN MoreSample.SERVICE_API MoreSample.SERVICE_COORDINATOR
              MoreSample.hass_data "entry-1" MoreSample.add_batch []
              {[ "entry-1" := {| service_coordinator := Some Sample.with_lambda;
                                 service_api := Some tt |};
                 "entry-2" := {| service_coordinator := Some Sample.with_lambda;
                                 service_api := None |} ]}
              {| service_coordinator := Some Sample.with_lambda; service_api := Some tt |}
              Sample.with_lambda tt []) as [Hout _].
  - vm_compute. reflexivity.
  - vm_compute. reflexivity.
  - reflexivity.
  - reflexivity.
  - eexists. split; [rewrite Hout; vm_compute; reflexivity | reflexivity].
Defined.

Lemma async_setup_entry_missing_service_witness :
  async_setup_entry Sample.snake Sample.tables MoreSample.DOMAIN
    MoreSample.SERVICE_API MoreSample.SERVICE_COORDINATOR
    MoreSample.hass_data "entry-2" MoreSample.add_batch [] [] =
  (Raise (KeyError "api"), []).
Proof.
  destruct (async_setup_entry_missing_service Sample.snake Sample.tables
              MoreSample.DOMAIN MoreSample.SERVICE_API MoreSample.SERVICE_COORDINATOR
              MoreSample.hass_data "entry-2" MoreSample.add_batch [] [])
    as (_ & _ & _ & Hapi).
  eapply Hapi.
  - vm_compute. reflexivity.
  - vm_compute. reflexivity.
  - reflexivity.
  - reflexivity.
Defined.

Lemma can_add_mixer_and_mixer_filter_witness :
  outcome (can_add_mixer MoreSample.has_reg_data "mixerSetTemp1" Sample.mixer_ready) []
  = Ok true.
Proof.
  apply (proj2 (can_add_mixer_and_mixer_filter Sample.tables MoreSample.has_reg_data
                  Sample.mixer_ready "1" [])).
  - split; [vm_compute; reflexivity|].
    intros k Hk. apply list_elem_of_In in Hk.
    destruct Hk as [<- | [<- | []]]; vm_compute; reflexivity.
  - apply list_elem_of_In. right. left. reflexivity.
Defined.

(** * Two calls of the factory, with the objects *)

Section ObjectFacts.

Context {Econet300Api : Type}.
Variable camel_to_snake : string -> string.
Variable tbl : const.

Lemma run_create_entity_description_obj key pv n w :
  create_entity_description_obj camel_to_snake tbl key pv n w =
  (Ok (description_of camel_to_snake tbl key,
       match ENTITY_VALUE_PROCESSOR tbl !! key with
       | Some _ => Imported key
       | None => Created n
       end,
       S n),
   w ++ [Log DEBUG "Creating sensor entity description for key: %s" [ArgStr key];
         Log DEBUG "Created sensor entity description: %s"
             [ArgDescription (description_of camel_to_snake tbl key)]]).
Proof.
  unfold create_entity_description_obj.
  rewrite !run_log_then, run_mret, <- app_assoc. reflexivity.
Qed.

Lemma loop_obj_skip key keys coordinator (api : Econet300Api) c pv filt reg sys acc n w :
  reaches_creation filt reg sys key = false ->
  create_sensors_loop_obj camel_to_snake tbl (key :: keys) coordinator api c pv
    filt reg sys acc n w =
  create_sensors_loop_obj camel_to_snake tbl keys coordinator api c pv
    filt reg sys acc n
    (w ++ [Log WARNING
             (if filt key
              then "Data for key %s is None in both regParams and sysParams, skipping entity creation."
              else "Key: %s does not meet filter condition")
             [ArgStr key]]).
Proof.
  unfold reaches_creation. intros H. cbn [create_sensors_loop_obj].
  destruct (filt key); cbn [negb andb] in *.
  - apply negb_false_iff in H. rewrite H. by rewrite run_log_then.
  - by rewrite run_log_then.
Qed.

Lemma loop_obj_create key keys coordinator (api : Econet300Api) c pv filt reg sys acc n w :
  reaches_creation filt reg sys key = true ->
  create_sensors_loop_obj camel_to_snake tbl (key :: keys) coordinator api c pv
    filt reg sys acc n w =
  match call_entity_class c (description_of camel_to_snake tbl key) coordinator api
          (w ++ [Log DEBUG "Creating sensor entity description for key: %s" [ArgStr key];
                 Log DEBUG "Created sensor entity description: %s"
                     [ArgDescription (description_of camel_to_snake tbl key)]]) with
  | (Ok e, w') =>
      create_sensors_loop_obj camel_to_snake tbl keys coordinator api c pv
        filt reg sys
        (acc ++ [{| sensor := e;
                    process_val_object :=
                      match ENTITY_VALUE_PROCESSOR tbl !! key with
                      | Some _ => Imported key
                      | None => Created n
                      end |}])
        (S n)
        (w' ++ [Log DEBUG "Created entity for key: %s" [ArgStr key]])
  | (Raise x, w') => (Raise x, w')
  end.
Proof.
  unfold reaches_creation. intros H. apply andb_true_iff in H as [Hf Hv].
  apply negb_true_iff in Hv. cbn [create_sensors_loop_obj].
  rewrite Hf, Hv. cbn [negb].
  rewrite run_bind, run_create_entity_description_obj, run_bind.
  destruct (call_entity_class _ _ _ _ _) as [[e|x] w']; [|reflexivity].
  rewrite run_log_then. reflexivity.
Qed.

(** Forgetting the objects gives the run of [create_sensors]. *)
Lemma loop_obj_erases keys coordinator (api : Econet300Api) c pv filt reg sys :
  forall acc n w,
    create_sensors_loop camel_to_snake tbl keys coordinator api c pv filt reg sys
      (sensor <$> acc) w =
    match create_sensors_loop_obj camel_to_snake tbl keys coordinator api c pv
            filt reg sys acc n w with
    | (Ok (es, _), w') => (Ok (sensor <$> es), w')
    | (Raise e, w') => (Raise e, w')
    end.
Proof.
  induction keys as [|k keys IH]; intros acc n w; [done|].
  destruct (reaches_creation filt reg sys k) eqn:Hr.
  - rewrite loop_create, loop_obj_create by done.
    destruct (call_entity_class _ _ _ _ _) as [[e|x] w']; [|done].
    rewrite <- IH. by rewrite fmap_app.
  - rewrite loop_skip, loop_obj_skip by done. apply IH.
Qed.

Lemma create_sensors_obj_erases keys coordinator (api : Econet300Api) c pv filt n w :
  create_sensors camel_to_snake tbl keys coordinator api c pv filt w =
  match create_sensors_obj camel_to_snake tbl keys coordinator api c pv filt n w with
  | (Ok (es, _), w') => (Ok (sensor <$> es), w')
  | (Raise e, w') => (Raise e, w')
  end.
Proof. unfold create_sensors, create_sensors_obj. apply (loop_obj_erases _ _ _ _ _ _ _ _ []). Qed.

Lemma loop_obj_outcome_three keys coordinator (api : Econet300Api) c pv filt reg sys :
  init_arity c = 3%nat ->
  forall acc n w,
    outcome (create_sensors_loop_obj camel_to_snake tbl keys coordinator api c pv
               filt reg sys acc n) w =
    Ok (acc ++ entities_from camel_to_snake tbl c coordinator api n
                 (filter (fun k => reaches_creation filt reg sys k = true) keys),
        (n + length (filter (fun k => reaches_creation filt reg sys k = true) keys))%nat).
Proof.
  intros Hc. unfold outcome. induction keys as [|k keys IH]; intros acc n w.
  - cbn. by rewrite app_nil_r, Nat.add_0_r.
  - destruct (reaches_creation filt reg sys k) eqn:Hr.
    + rewrite loop_obj_create by done. rewrite run_call_three by done. rewrite IH.
      rewrite filter_cons_True by done. cbn [entities_from length].
      rewrite <- app_assoc. cbn. do 2 f_equal. lia.
    + rewrite loop_obj_skip by done. rewrite IH.
      by rewrite filter_cons_False by (by rewrite Hr).
Qed.

Lemma loop_obj_outcome_mixer keys coordinator (api : Econet300Api) pv filt reg sys :
  forall acc n w,
    outcome (create_sensors_loop_obj camel_to_snake tbl keys coordinator api
               class_MixerSensor pv filt reg sys acc n) w =
    if existsb (reaches_creation filt reg sys) keys
    then Raise (TypeError
           "MixerSensor.__init__() missing 1 required positional argument: 'idx'")
    else Ok (acc, n).
Proof.
  unfold outcome. induction keys as [|k keys IH]; intros acc n w; [done|].
  cbn [existsb]. destruct (reaches_creation filt reg sys k) eqn:Hr.
  - rewrite loop_obj_create by done. by rewrite run_call_mixer.
  - rewrite loop_obj_skip by done. by rewrite IH.
Qed.

(** The entities of the same keys, from two different object numbers. *)
Lemma entities_from_twice c coordinator (api : Econet300Api) (keys : list string) :
  forall n n',
    n <> n' ->
    Forall2
      (fun e1 e2 =>
         data_fields_eq (entity_description (sensor e1)) (entity_description (sensor e2))
         /\ (forall x, process_val (entity_description (sensor e1)) x =
                       process_val (entity_description (sensor e2)) x)
         /\ (is_Some (ENTITY_VALUE_PROCESSOR tbl !! key (entity_description (sensor e1))) ->
             process_val_object e1 = process_val_object e2)
         /\ (ENTITY_VALUE_PROCESSOR tbl !! key (entity_description (sensor e1)) = None ->
             process_val_object e1 <> process_val_object e2))
      (entities_from camel_to_snake tbl c coordinator api n keys)
      (entities_from camel_to_snake tbl c coordinator api n' keys).
Proof.
  induction keys as [|k keys IH]; intros n n' Hne; [constructor|].
  cbn [entities_from]. constructor; [|apply IH; lia].
  cbn. split; [by repeat split|]. split; [done|].
  destruct (ENTITY_VALUE_PROCESSOR tbl !! k) as [f|].
  - split; [done|]. discriminate.
  - split; [by intros [? [=]]|]. intros _ [= Heq]. done.
Qed.

(** C9 (as amended): when the first of two successive calls returns, the
    second, which starts from a later object number and from any log, returns a
    list of the same length; position by position the two descriptors have
    the same eight data fields and transforms that return the same result on
    every input.  The two transforms are the same object when
    [ENTITY_VALUE_PROCESSOR] has the key and two different objects when it
    has not.  When the first call raises, the second raises the same
    exception. *)
Theorem create_sensors_twice keys coordinator (api : Econet300Api) c pv filt n w :
  (forall es1 n1,
     outcome (create_sensors_obj camel_to_snake tbl keys coordinator api c pv filt n) w
       = Ok (es1, n1) ->
     forall n2 w2,
       (n1 <= n2)%nat ->
       exists es2 n2',
         outcome (create_sensors_obj camel_to_snake tbl keys coordinator api c pv filt n2) w2
           = Ok (es2, n2')
         /\ length es1 = length es2
         /\ Forall2
              (fun e1 e2 =>
                 data_fields_eq (entity_description (sensor e1))
                                (entity_description (sensor e2))
                 /\ (forall x, process_val (entity_description (sensor e1)) x =
                               process_val (entity_description (sensor e2)) x)
                 /\ (is_Some (ENTITY_VALUE_PROCESSOR tbl
                                !! key (entity_description (sensor e1))) ->
                     process_val_object e1 = process_val_object e2)
                 /\ (ENTITY_VALUE_PROCESSOR tbl
                       !! key (entity_description (sensor e1)) = None ->
                     process_val_object e1 <> process_val_object e2))
              es1 es2)
  /\ (forall e,
        outcome (create_sensors_obj camel_to_snake tbl keys coordinator api c pv filt n) w
          = Raise e ->
        forall n2 w2,
          outcome (create_sensors_obj camel_to_snake tbl keys coordinator api c pv filt n2) w2
            = Raise e).
Proof.
  unfold create_sensors_obj. destruct (init_arity_cases c) as [Hc | ->].
  - split.
    + intros es1 n1. rewrite loop_obj_outcome_three by done. cbn [app].
      intros [= <- <-] n2 w2 Hle. rewrite loop_obj_outcome_three by done. cbn [app].
      eexists _, _. split; [reflexivity|].
      set (ks := filter _ keys) in *. destruct ks as [|k ks].
      * split; [done | constructor].
      * assert (n <> n2) as Hne by (cbn [length] in Hle; lia).
        split; [|by apply entities_from_twice].
        eapply Forall2_length, (entities_from_twice _ _ _ _ _ _ Hne).
    + intros e. by rewrite loop_obj_outcome_three.
  - split.
    + intros es1 n1. rewrite !loop_obj_outcome_mixer.
      destruct (existsb _ keys) eqn:Hex; [done|]. intros [= <- <-] n2 w2 _.
      rewrite loop_obj_outcome_mixer, Hex. eexists _, _.
      split; [reflexivity|]. split; [done | constructor].
    + intros e. rewrite loop_obj_outcome_mixer.
      destruct (existsb _ keys) eqn:Hex; [|done]. intros [= <-] n2 w2.
      by rewrite loop_obj_outcome_mixer, Hex.
Qed.

End ObjectFacts.

(** The claim C9 as it is worded fails: the controller key "tempCO" has no
    entry in [ENTITY_VALUE_PROCESSOR], so each of two successive calls puts a
    new [lambda x: x] in the descriptor, and the two descriptors do not
    compare equal. *)
Lemma create_sensors_twice_descriptors_differ :
  exists es1 n1 w1 es2 n2,
    create_sensors_obj Sample.snake Sample.tables ["tempCO"] Sample.with_lambda tt
      class_EconetSensor identity accept_all 0 [] = (Ok (es1, n1), w1)
    /\ outcome (create_sensors_obj Sample.snake Sample.tables ["tempCO"]
                  Sample.with_lambda tt class_EconetSensor identity accept_all n1) w1
       = Ok (es2, n2)
    /\ length es1 = length es2
    /\ ~ Forall2 descriptors_equal es1 es2.
Proof.
  eexists _, _, _, _, _. split; [vm_compute; reflexivity|].
  split; [vm_compute; reflexivity|]. split; [reflexivity|].
  intros H. apply Forall2_cons_1 in H as [[_ Hobj] _]. discriminate Hobj.
Qed.

Lemma create_sensors_twice_witness :
  exists es2 n2',
    outcome (create_sensors_obj Sample.snake Sample.tables ["tempCO"; "fanPower"; "mode"]
               Sample.zero_in_reg tt class_EconetSensor identity accept_all 2)
            [Log INFO "between the two calls" []]
      = Ok (es2, n2')
    /\ length es2 = 2%nat
    /\ Forall2
         (fun e1 e2 =>
            data_fields_eq (entity_description (sensor e1)) (entity_description (sensor e2))
            /\ forall x, process_val (entity_description (sensor e1)) x =
                         process_val (entity_description (sensor e2)) x)
         (entities_from Sample.snake Sample.tables class_EconetSensor
            Sample.zero_in_reg tt 0 ["tempCO"; "fanPower"])
         es2.
Proof.
  destruct (proj1 (create_sensors_twice Sample.snake Sample.tables
                     ["tempCO"; "fanPower"; "mode"] Sample.zero_in_reg tt
                     class_EconetSensor identity accept_all 0 [])
              (entities_from Sample.snake Sample.tables class_EconetSensor
                 Sample.zero_in_reg tt 0 ["tempCO"; "fanPower"])
              2%nat)
    with 2%nat [Log INFO "between the two calls" []]
    as (es2 & n2' & Hsecond & Hlen & Hall).
  - vm_compute. reflexivity.
  - apply le_n.
  - exists es2, n2'. split; [exact Hsecond|]. split; [by rewrite <- Hlen|].
    eapply Forall2_impl; [exact Hall|].
    intros e1 e2 (Hd & Hx & _). split; [exact Hd | exact Hx].
Defined.
